(** * JWST program extractor: a shallow embedding of [get_nirspec_mos_info.py]

    The module scrapes program-listing pages of the JWST site and keeps the
    rows that use NIRSpec (multi-object spectroscopy).  The embedding follows
    the Python source function by function:

    - Python [str] is [string]; the text is taken to be ASCII, so
      [str.strip()] removes the code points 9-13 and 28-32;
    - a Python exception is a value [Raise e] of the [result] monad, a normal
      return is [Return v];
    - the BeautifulSoup parse tree is seen through the queries the source
      makes: [find_all('table')], [find_all('tr')], [find_all('th')],
      [find_all('td')], [get_text(strip=True)] and [find('img')];
    - [requests.get] / [session.get] are an input of the functions: what the
      call returns or raises;
    - the debugging [print]s and [time.sleep] are left out; the report that
      [check_csv] prints is its result. *)

From Stdlib Require Import ZArith Ascii String.
From stdpp Require Import gmap strings list fin_maps.

Local Open Scope string_scope.
Local Open Scope Z_scope.
Local Open Scope list_scope.

(** ** Exceptions and results *)

Inductive exn : Type :=
  | ValueError        (* list.index: the value is not in the list *)
  | IndexError        (* a subscript out of range *)
  | KeyError          (* a missing DataFrame column *)
  | HTTPError (status : Z)   (* requests.HTTPError, from raise_for_status *)
  | ConnectionError   (* requests.ConnectionError *)
  | Timeout           (* requests.Timeout *)
  | RequestException. (* any other failure of the transport *)

Inductive result (A : Type) : Type :=
  | Return (a : A)
  | Raise (e : exn).
Arguments Return {A} a.
Arguments Raise {A} e.

Global Instance result_ret : MRet result := @Return.
Global Instance result_bind : MBind result := λ A B f m,
  match m with
  | Return a => f a
  | Raise e => Raise e
  end.

(** A Python [for] loop whose body may raise: the body maps the loop state
    and the current item to the next state; [continue] is [Return s]. *)
Fixpoint for_loop {S A : Type} (body : S → A → result S) (s : S) (l : list A)
    : result S :=
  match l with
  | [] => Return s
  | a :: l' => s' ← body s a; for_loop body s' l'
  end.

(** [r] raises, if at all, an exception in [P]. *)
Definition only_raises {A : Type} (P : exn → Prop) (r : result A) : Prop :=
  match r with
  | Return _ => True
  | Raise e => P e
  end.

(** ** Python strings and lists *)

Module Py.

(** [str.isspace] on the ASCII range. *)
Definition isspace (c : ascii) : bool :=
  let n := nat_of_ascii c in
  ((9 <=? n)%nat && (n <=? 13)%nat) || ((28 <=? n)%nat && (n <=? 32)%nat).

Fixpoint lstrip (s : string) : string :=
  match s with
  | EmptyString => EmptyString
  | String c s' => if isspace c then lstrip s' else s
  end.

Definition rstrip (s : string) : string := String.rev (lstrip (String.rev s)).

(** [s.strip()] *)
Definition strip (s : string) : string := rstrip (lstrip s).

(** [s.replace(c, '')] for a one-character [c]. *)
Fixpoint remove_char (c : ascii) (s : string) : string :=
  match s with
  | EmptyString => EmptyString
  | String d s' =>
      if Ascii.eqb c d then remove_char c s' else String d (remove_char c s')
  end.

(** [sub in s] on strings. *)
Fixpoint contains (sub s : string) : bool :=
  String.prefix sub s ||
  match s with
  | EmptyString => false
  | String _ s' => contains sub s'
  end.

(** [''.join(l)] *)
Definition join (l : list string) : string := foldr String.app "" l.

(** [x in l] on lists. *)
Definition mem (x : string) (l : list string) : bool := bool_decide (x ∈ l).

Fixpoint find_index (x : string) (l : list string) : option nat :=
  match l with
  | [] => None
  | y :: l' => if bool_decide (x = y) then Some 0%nat else S <$> find_index x l'
  end.

(** [l.index(x)] *)
Definition index (x : string) (l : list string) : result nat :=
  match find_index x l with
  | Some i => Return i
  | None => Raise ValueError
  end.

(** [l[i]] for [i >= 0] *)
Definition getitem {A : Type} (l : list A) (i : nat) : result A :=
  match l !! i with
  | Some a => Return a
  | None => Raise IndexError
  end.

(** [l[i]] for a Python integer: a negative [i] counts from the end. *)
Definition getitem_int {A : Type} (l : list A) (i : Z) : result A :=
  let j := if i <? 0 then i + Z.of_nat (length l) else i in
  if j <? 0 then Raise IndexError else getitem l (Z.to_nat j).

(** [l[i] = x] for [i >= 0] *)
Definition setitem {A : Type} (l : list A) (i : nat) (x : A) : result (list A) :=
  if bool_decide (i < length l)%nat then Return (<[i:=x]> l) else Raise IndexError.

(** [dict(zip(keys, values))]: the pairs are inserted from left to right,
    so the last value of a repeated key is the one kept. *)
Definition dict_zip (keys values : list string) : gmap string string :=
  foldl (λ m kv, <[kv.1 := kv.2]> m) ∅ (zip keys values).

End Py.

(** ** The parse tree, through its queries *)

(** An element whose text is read: the strings below it in document order
    and whether an [<img>] lies below it. *)
Record element : Type := Element {
  el_strings : list string;
  el_img : bool
}.

(** [e.get_text(strip=True)]: every string is stripped, the empty ones are
    dropped and the rest is concatenated. *)
Definition get_text (e : element) : string :=
  Py.join (filter (λ s, s ≠ "") (Py.strip <$> el_strings e)).

(** [bool(e.find('img'))] *)
Definition find_img (e : element) : bool := el_img e.

(** A [<tr>]: its [<th>] cells and its [<td>] cells. *)
Record tr : Type := Tr {
  th : list element;
  td : list element
}.

(** A [<table>] is what [table.find_all('tr')] returns. *)
Definition table : Type := list tr.

Record soup : Type := Soup {
  topics : list element;   (* find_all('span', class_='accordion__title-text') *)
  tables : list table      (* find_all('table') *)
}.

Record response : Type := Response {
  status_code : Z;
  content : soup           (* BeautifulSoup(response.content, 'html.parser') *)
}.

(** [response.raise_for_status()]: requests raises [HTTPError] for the codes
    400 to 599. *)
Definition raise_for_status (r : response) : result unit :=
  if (400 <=? status_code r) && (status_code r <? 600)
  then Raise (HTTPError (status_code r))
  else Return tt.

Definition text (s : string) : element := Element [s] false.
Definition image : element := Element [] true.

(** ** extract_basic_info_from_GO *)

Module GO.

(** [.replace('\n', '').replace('\r', '').replace(' ', '')] *)
Definition normalize (s : string) : string :=
  Py.remove_char " "%char (Py.remove_char "013"%char (Py.remove_char "010"%char s)).

(** The two branches of the alias test: the column is looked up under
    "Instrument/Mode" unless "Instrument/ Mode" is a header. *)
Definition instrument_mode (headers : list string) (columns : list element)
    : result string :=
  if negb (Py.mem "Instrument/ Mode" headers) then
    i ← Py.index "Instrument/Mode" headers;
    col ← Py.getitem columns i;
    mret (normalize (get_text col))
  else
    i ← Py.index "Instrument/ Mode" headers;
    col ← Py.getitem columns i;
    mret (normalize (get_text col)).

(** The body of [for row in rows[1:]]. *)
Definition row_body (headers : list string) (topic_text cycle_number : string)
    (data : list (list string)) (row : tr) : result (list (list string)) :=
  let columns := td row in
  if negb (length columns =? length headers)%nat then mret data
  else
    mode ← instrument_mode headers columns;
    if Py.contains "NIRSpec/MOS" mode then
      let row_data := get_text <$> columns in
      let row_data := row_data ++ [topic_text] in
      let row_data := row_data ++ [cycle_number] in
      mret (data ++ [row_data])
    else mret data.

(** The body of [for topic, table in zip(topics, tables)]; the state is
    [(data, headers)], with [headers = None] until the first table that has
    a row. *)
Definition table_body (cycle_number : string)
    (st : list (list string) * option (list string)) (item : element * table)
    : result (list (list string) * option (list string)) :=
  let '(data, headers) := st in
  let '(topic, rows) := item in
  match rows with
  | [] => mret (data, headers)
  | row0 :: rows1 =>
      let current_headers := get_text <$> th row0 in
      let headers := match headers with
                     | None => current_headers
                     | Some h => h
                     end in
      let topic_text := get_text topic in
      data ← for_loop (row_body headers topic_text cycle_number) data rows1;
      mret (data, Some headers)
  end.

Definition parse (page : soup) (cycle_number : string)
    : result (list (list string) * option (list string)) :=
  for_loop (table_body cycle_number) ([], None) (zip (topics page) (tables page)).

End GO.

(** [get] is the outcome of [requests.get(url)]. *)
Definition extract_basic_info_from_GO (get : result response) (cycle_number : string)
    : result (list (list string) * option (list string)) :=
  response ← get;
  _ ← raise_for_status response;
  GO.parse (content response) cycle_number.

(** ** extract_basic_info_from_GTO *)

Module GTO.

(** [Some mode], or [None] where the source says [continue]. *)
Definition instrument_mode (headers : list string) (columns : list element)
    : result (option string) :=
  if Py.mem "Instrument/Mode" headers then
    i ← Py.index "Instrument/Mode" headers;
    col ← Py.getitem columns i;
    mret (Some (get_text col))
  else if Py.mem "Instrument/ Mode" headers then
    i ← Py.index "Instrument/ Mode" headers;
    col ← Py.getitem columns i;
    mret (Some (get_text col))
  else mret None.

(** The emitted row of a matching row, with the "AR" marker. *)
Definition row_data (headers : list string) (columns : list element)
    : result (list string) :=
  let row_data := get_text <$> columns in
  if Py.mem "AR?" headers then
    ar_index ← Py.index "AR?" headers;
    col ← Py.getitem columns ar_index;
    if find_img col then Py.setitem row_data ar_index "AR" else mret row_data
  else mret row_data.

Definition row_body (headers : list string)
    (data : list (list string)) (row : tr) : result (list (list string)) :=
  let columns := td row in
  if negb (length columns =? length headers)%nat then mret data
  else
    mode ← instrument_mode headers columns;
    match mode with
    | None => mret data
    | Some mode =>
        if Py.contains "NIRSpec/MOS" mode then
          rd ← row_data headers columns;
          mret (data ++ [rd])
        else mret data
    end.

Definition table_body
    (st : list (list string) * option (list string)) (rows : table)
    : result (list (list string) * option (list string)) :=
  let '(data, headers) := st in
  match rows with
  | [] => mret (data, headers)
  | row0 :: rows1 =>
      let current_headers := get_text <$> th row0 in
      let headers := match headers with
                     | None => current_headers
                     | Some h => h
                     end in
      data ← for_loop (row_body headers) data rows1;
      mret (data, Some headers)
  end.

Definition parse (page : soup)
    : result (list (list string) * option (list string)) :=
  for_loop table_body ([], None) (tables page).

End GTO.

Definition extract_basic_info_from_GTO (get : result response)
    : result (list (list string) * option (list string)) :=
  response ← get;
  _ ← raise_for_status response;
  GTO.parse (content response).

(** ** extract_basic_info_from_DDT *)

Module DDT.

Definition instrument_mode (headers : list string) (columns : list element)
    : result (option string) :=
  if Py.mem "Instruments" headers then
    i ← Py.index "Instruments" headers;
    col ← Py.getitem columns i;
    mret (Some (get_text col))
  else mret None.

Definition row_body (headers : list string)
    (data : list (list string)) (row : tr) : result (list (list string)) :=
  let columns := td row in
  if negb (length columns =? length headers)%nat then mret data
  else
    mode ← instrument_mode headers columns;
    match mode with
    | None => mret data
    | Some mode =>
        if Py.contains "NIRSpec" mode then
          let row_data := get_text <$> columns in
          mret (data ++ [row_data])
        else mret data
    end.

Definition table_body
    (st : list (list string) * option (list string)) (rows : table)
    : result (list (list string) * option (list string)) :=
  let '(data, headers) := st in
  match rows with
  | [] => mret (data, headers)
  | row0 :: rows1 =>
      let current_headers := get_text <$> th row0 in
      let headers := match headers with
                     | None => current_headers
                     | Some h => h
                     end in
      data ← for_loop (row_body headers) data rows1;
      mret (data, Some headers)
  end.

Definition parse (page : soup)
    : result (list (list string) * option (list string)) :=
  for_loop table_body ([], None) (tables page).

End DDT.

Definition extract_basic_info_from_DDT (get : result response)
    : result (list (list string) * option (list string)) :=
  response ← get;
  _ ← raise_for_status response;
  DDT.parse (content response).

(** ** get_observation_status *)

Module Status.

Definition record : Type := gmap string string.

(** The body of [for row in rows] for one table. *)
Definition row_body (headers : list string) (template_index : Z)
    (all_status_data : list record) (row : tr) : result (list record) :=
  let columns := td row in
  if negb (length columns =? length headers)%nat then mret all_status_data
  else
    let row_data := get_text <$> columns in
    if negb (template_index =? -1) then
      cell ← Py.getitem_int row_data template_index;
      if Py.contains "NIRSpec MultiObject Spectroscopy" cell then
        let row_dict := Py.dict_zip headers row_data in
        mret (all_status_data ++ [row_dict])
      else mret all_status_data
    else mret all_status_data.

(** [all_headers.extend([h for h in headers if h not in all_headers])]:
    the comprehension is built against [all_headers] as it is before the
    call, then appended. *)
Definition extend_new (all_headers headers : list string) : list string :=
  all_headers ++ filter (λ header, header ∉ all_headers) headers.

(** The body of [for table in tables]; the state is
    [(all_status_data, all_headers)]. *)
Definition table_body (st : list record * list string) (rows : table)
    : result (list record * list string) :=
  let '(all_status_data, all_headers) := st in
  row0 ← Py.getitem rows 0%nat;
  let headers := get_text <$> td row0 in
  match headers with
  | [] => mret (all_status_data, all_headers)
  | _ :: _ =>
      let all_headers := extend_new all_headers headers in
      template_index ←
        (if Py.mem "Template" headers
         then i ← Py.index "Template" headers; mret (Z.of_nat i)
         else mret (-1));
      let rows := drop 1 rows in
      all_status_data ← for_loop (row_body headers template_index) all_status_data rows;
      mret (all_status_data, all_headers)
  end.

(** What the [try] block does with a fetched and accepted page. *)
Definition extract (page : soup) : result (list record * list string) :=
  match tables page with
  | [] => mret ([], [])
  | _ :: _ => for_loop table_body ([], []) (tables page)
  end.

(** The [try] block for the outcome of [session.get(url, timeout=60)]. *)
Definition try_block (get : result response) : result (list record * list string) :=
  response ← get;
  _ ← raise_for_status response;
  extract (content response).

(** [except (requests.ConnectionError, requests.Timeout)] *)
Definition caught (e : exn) : bool :=
  match e with
  | ConnectionError | Timeout => true
  | _ => false
  end.

(** The [while attempt < retries] loop.  [session n] is the outcome of the
    [n]-th call of [session.get], counted from 0, and [calls] the number of
    calls made so far; the loop returns its outcome with the final number
    of calls.  [fuel] bounds the iterations. *)
Fixpoint while_loop (fuel : nat) (session : nat → result response)
    (retries attempt : Z) (calls : nat)
    : option (result (list record * list string) * nat) :=
  match fuel with
  | O => None
  | S fuel =>
      if attempt <? retries then
        match try_block (session calls) with
        | Return r => Some (Return r, S calls)
        | Raise e =>
            if caught e
            then while_loop fuel session retries (attempt + 1) (S calls)
            else Some (Raise e, S calls)
        end
      else Some (Return ([], []), calls)
  end.

End Status.

(** The outcome and the number of fetches made.  The loop runs at most
    [retries] times and once more for the failing test, which is the fuel
    given here; [get_observation_status_total] shows that it is enough. *)
Definition get_observation_status (session : nat → result response) (retries : Z)
    : option (result (list Status.record * list string) * nat) :=
  Status.while_loop (S (Z.to_nat retries)) session retries 0 0%nat.

(** ** check_csv *)

(** A line of the report: [print] of a string or of a set.  A printed set
    is given by its members; the order in which Python writes them is not
    part of the model. *)
Inductive printed : Type :=
  | PrintStr (s : string)
  | PrintSet (X : gset string).

(** A DataFrame, by column name. *)
Definition dataframe : Type := gmap string (list string).

(** [df[name].tolist()] *)
Definition column (df : dataframe) (name : string) : result (list string) :=
  match df !! name with
  | Some c => Return c
  | None => Raise KeyError
  end.

(** [df1] and [df2] are what [pd.read_csv] gives for the two files; the
    reading of the files, and its failures, are outside the model. *)
Definition check_csv (df1 df2 : dataframe) : result (list printed) :=
  df1id ← column df1 "ID";
  df2id ← column df2 "ID";
  if bool_decide ((list_to_set df1id : gset string) ⊆ list_to_set df2id) then
    mret [PrintStr "All checked"]
  else
    mret [PrintStr "Not all checked, missing:";
          PrintSet (list_to_set df1id ∖ list_to_set df2id)].

(** ** Building pages *)

Definition header_row (names : list string) : tr := Tr (text <$> names) [].
Definition data_row (cells : list string) : tr := Tr [] (text <$> cells).
Definition status_row (cells : list string) : tr := Tr [] (text <$> cells).
Definition ok (page : soup) : result response := Return (Response 200 page).

Definition page_of (tbls : list table) : soup := Soup [] tbls.

(** ** Vocabulary of the properties *)

(** A fetch that raises one of the two exceptions the retry loop catches. *)
Definition transient (r : result response) : Prop :=
  r = Raise ConnectionError ∨ r = Raise Timeout.

(** The status code passes [raise_for_status]. *)
Definition good_status (code : Z) : Prop := ¬ (400 <= code < 600).

(** The exceptions of a failed list lookup or subscript. *)
Definition lookup_error (e : exn) : Prop := e = ValueError ∨ e = IndexError.

(** The row has as many cells as there are headers. *)
Definition full_row (hs : list string) (r : tr) : bool :=
  (length (td r) =? length hs)%nat.

(** The header texts of a table: the [<th>] cells of its first row. *)
Definition header_texts (t : table) : list string :=
  match t with
  | [] => []
  | row0 :: _ => get_text <$> th row0
  end.

(** The header list the three page extractors work with and return: the
    header texts of the first table that has a row. *)
Fixpoint effective_headers (ts : list table) : option (list string) :=
  match ts with
  | [] => None
  | [] :: ts' => effective_headers ts'
  | t :: _ => Some (header_texts t)
  end.

(** The tables that [zip(topics, tables)] reaches. *)
Definition paired_tables (page : soup) : list table :=
  (zip (topics page) (tables page)).*2.

(** The emitted row [row] has, in the column [name] of [headers], a cell
    whose text contains [sub] once [norm] is applied to it. *)
Definition cell_matches (name : string) (norm : string → string) (sub : string)
    (headers row : list string) : bool :=
  match Py.find_index name headers with
  | Some i =>
      match row !! i with
      | Some cell => Py.contains sub (norm cell)
      | None => false
      end
  | None => false
  end.

(** The column name each extractor resolves the instrument column to. *)
Definition GO_column (headers : list string) : string :=
  if Py.mem "Instrument/ Mode" headers then "Instrument/ Mode" else "Instrument/Mode".
Definition GTO_column (headers : list string) : string :=
  if Py.mem "Instrument/Mode" headers then "Instrument/Mode" else "Instrument/ Mode".

(** A data row of the page: a row after the first of one of its tables. *)
Definition data_row_of (ts : list table) (row : tr) : Prop :=
  ∃ t, t ∈ ts ∧ row ∈ drop 1 t.

(** *** Rows and the table they come from *)

(** The rows each extractor emits for one table, given the effective
    headers: its row loop run on that table alone. *)
Definition GO_emitted_by (headers : list string) (topic_text cycle_number : string)
    (t : table) : result (list (list string)) :=
  for_loop (GO.row_body headers topic_text cycle_number) [] (drop 1 t).
Definition GTO_emitted_by (headers : list string) (t : table)
    : result (list (list string)) :=
  for_loop (GTO.row_body headers) [] (drop 1 t).
Definition DDT_emitted_by (headers : list string) (t : table)
    : result (list (list string)) :=
  for_loop (DDT.row_body headers) [] (drop 1 t).

(** "Every emitted row has as many cells as its own table has headers", for
    an extractor given by its parser and its per-table rows; [extra] counts
    the cells the extractor appends to a row. *)
Definition own_table_count
    (parse : soup → result (list (list string) * option (list string)))
    (emitted_by : list string → table → result (list (list string)))
    (extra : nat) : Prop :=
  ∀ page data headers t rows row,
    parse page = Return (data, Some headers) →
    t ∈ tables page →
    emitted_by headers t = Return rows →
    row ∈ rows →
    length row = (length (header_texts t) + extra)%nat.

(** A status record built from a data row of [t] that has as many cells as
    the first row of [t]. *)
Definition status_record_of (t : table) (rec : Status.record) : Prop :=
  ∃ row0 row,
    t !! 0%nat = Some row0 ∧ row ∈ drop 1 t ∧
    length (td row) = length (td row0) ∧
    rec = Py.dict_zip (get_text <$> td row0) (get_text <$> td row).

(** *** The two spellings of the instrument column *)

Definition rename_header (s : string) : string :=
  if bool_decide (s = "Instrument/Mode") then "Instrument/ Mode" else s.

(** The same cell, named "Instrument/ Mode" if it was named "Instrument/Mode". *)
Definition rename_cell (e : element) : element :=
  if bool_decide (get_text e = "Instrument/Mode")
  then Element ["Instrument/ Mode"] (el_img e)
  else e.

Definition rename_table (t : table) : table :=
  match t with
  | [] => []
  | row0 :: rows => Tr (rename_cell <$> th row0) (td row0) :: rows
  end.

Definition rename_page (page : soup) : soup :=
  Soup (topics page) (rename_table <$> tables page).

(** The same result, with the header list renamed. *)
Definition rename_result (r : result (list (list string) * option (list string)))
    : result (list (list string) * option (list string)) :=
  match r with
  | Return (data, headers) => Return (data, option_map (map rename_header) headers)
  | Raise e => Raise e
  end.

(** *** The header vocabulary of the status page *)

(** Following the spec's words: names are appended one at a time, each only
    if it is not already present. *)
Definition append_if_new (acc : list string) (name : string) : list string :=
  if bool_decide (name ∈ acc) then acc else acc ++ [name].

Definition first_appearance_union (headers_of_tables : list (list string))
    : list string :=
  foldl append_if_new [] (concat headers_of_tables).

(** The header rows [get_observation_status] reads: the [<td>] texts of the
    first row of each table. *)
Definition status_headers (t : table) : list string :=
  match t with
  | [] => []
  | row0 :: _ => get_text <$> td row0
  end.

(** *** The table loop the three page extractors share *)

(** The three extractors run the same loop over tables; they differ in the
    items (GO pairs a topic with each table) and in the row loop. *)
Definition table_step {T : Type} (rows_of : T → table)
    (row_body : list string → T → list (list string) → tr → result (list (list string)))
    (st : list (list string) * option (list string)) (item : T)
    : result (list (list string) * option (list string)) :=
  let '(data, headers) := st in
  match rows_of item with
  | [] => mret (data, headers)
  | row0 :: rows1 =>
      let headers := match headers with
                     | None => get_text <$> th row0
                     | Some h => h
                     end in
      data ← for_loop (row_body headers item) data rows1;
      mret (data, Some headers)
  end.

(** With the headers fixed, the data are the result of two nested loops. *)
Definition rows_step {T : Type} (rows_of : T → table)
    (row_body : T → list (list string) → tr → result (list (list string)))
    (data : list (list string)) (item : T) : result (list (list string)) :=
  for_loop (row_body item) data (drop 1 (rows_of item)).

Definition GO_row_body (cycle_number : string) (headers : list string)
    (item : element * table) :=
  GO.row_body headers (get_text item.1) cycle_number.

(** *** What an emitted row says of the row it comes from *)

Definition GO_row_of (headers : list string) (topic_text cycle_number : string)
    (r : tr) (row : list string) : Prop :=
  length (td r) = length headers ∧
  row = ((get_text <$> td r) ++ [topic_text]) ++ [cycle_number] ∧
  cell_matches (GO_column headers) GO.normalize "NIRSpec/MOS" headers row = true.

Definition GTO_row_of (headers : list string) (r : tr) (row : list string) : Prop :=
  length (td r) = length headers ∧
  GTO.row_data headers (td r) = Return row ∧
  cell_matches (GTO_column headers) id "NIRSpec/MOS" headers row = true.

Definition DDT_row_of (headers : list string) (r : tr) (row : list string) : Prop :=
  length (td r) = length headers ∧
  row = get_text <$> td r ∧
  cell_matches "Instruments" id "NIRSpec" headers row = true.

(** *** Pages and sessions for the examples *)

(** The page of a proposal with two visits, one of them MOS. *)
Definition status_page : soup :=
  page_of [[status_row ["Observation"; "Template"; "Status"];
            status_row ["1"; "NIRSpec MultiObject Spectroscopy"; "Archived"];
            status_row ["2"; "NIRCam Imaging"; "Archived"]]].

(** Times out twice, then answers. *)
Definition flaky_session (r : result response) : nat → result response :=
  λ n, if (n <? 2)%nat then Raise Timeout else r.

(** Always times out. *)
Definition dead_session : nat → result response := λ _, Raise Timeout.

(** One table under the topic "Galaxies". *)
Definition GO_page : soup :=
  Soup [text " Galaxies "]
       [[header_row ["Instrument/Mode"; "PI"; "ID"];
         data_row ["NIRSpec/MOS Prism"; "Smith"; "GO-001"];
         data_row ["NIRCam/Imaging"; "Jones"; "GO-002"];
         data_row ["NIRSpec/MOS"; "short"]]].

(** A GTO table with the "AR" icon in its first column. *)
Definition GTO_page : soup :=
  page_of [[header_row ["AR?"; "Instrument/ Mode"; "ID"];
            Tr [] [image; text "NIRSpec/MOS"; text "1210"];
            Tr [] [text ""; text "NIRSpec/MOS"; text "1211"];
            Tr [] [image; text "MIRI/MRS"; text "1212"]]].

Definition DDT_page : soup :=
  page_of [[header_row ["ID"; "Instruments"];
            data_row ["2756"; "NIRSpec, NIRCam"];
            data_row ["2757"; "MIRI"]]].

(** Two tables; the second has one header more than the first and a row as
    long as the header row of the first. *)
Definition two_table_page : soup :=
  Soup [text "Galaxies"; text "Stars"]
       [[header_row ["Instrument/Mode"; "PI"]];
        [header_row ["Instrument/Mode"; "PI"; "ID"];
         data_row ["NIRSpec/MOS"; "Smith"]]].

(** A table without an instrument column. *)
Definition no_column_page : soup :=
  Soup [text "Galaxies"]
       [[header_row ["PI"; "ID"]; data_row ["Smith"; "GO-001"]]].

(** *** The extractors as filters over the data rows *)

(** The data rows of the tables, in document order. *)
Definition data_rows (ts : list table) : list tr := concat (drop 1 <$> ts).

(** The stripped texts of the cells of a row. *)
Definition cell_texts (r : tr) : list string := get_text <$> td r.

(** The cell of [r] in the column [name] of [hs] contains [sub] once [norm]
    is applied to its text. *)
Definition column_contains (name sub : string) (norm : string → string)
    (hs : list string) (r : tr) : bool :=
  match Py.find_index name hs with
  | Some i =>
      match td r !! i with
      | Some col => Py.contains sub (norm (get_text col))
      | None => false
      end
  | None => false
  end.

(** The rows each function keeps, given the headers it works with. *)
Definition GO_selects (hs : list string) (r : tr) : bool :=
  full_row hs r && column_contains (GO_column hs) "NIRSpec/MOS" GO.normalize hs r.
Definition GTO_selects (hs : list string) (r : tr) : bool :=
  full_row hs r && column_contains (GTO_column hs) "NIRSpec/MOS" id hs r.
Definition DDT_selects (hs : list string) (r : tr) : bool :=
  full_row hs r && column_contains "Instruments" "NIRSpec" id hs r.
Definition Status_selects (hs : list string) (r : tr) : bool :=
  full_row hs r &&
  column_contains "Template" "NIRSpec MultiObject Spectroscopy" id hs r.

(** The cell texts of a row, with "AR" over the "AR?" cell that holds an
    image. *)
Definition GTO_marked (hs : list string) (r : tr) : list string :=
  match Py.find_index "AR?" hs with
  | Some i =>
      match td r !! i with
      | Some col => if find_img col then <[i := "AR"]> (cell_texts r) else cell_texts r
      | None => cell_texts r
      end
  | None => cell_texts r
  end.

(** The rows GO keeps of one table, with the topic and the cycle appended. *)
Definition GO_rows_of (hs : list string) (cycle_number : string)
    (item : element * table) : list (list string) :=
  (λ r, (cell_texts r ++ [get_text item.1]) ++ [cycle_number])
    <$> filter (λ r, GO_selects hs r) (drop 1 item.2).

Definition GO_expected (page : soup) (cycle_number : string)
    : list (list string) * option (list string) :=
  match effective_headers (paired_tables page) with
  | None => ([], None)
  | Some hs =>
      (concat (GO_rows_of hs cycle_number <$> zip (topics page) (tables page)),
       Some hs)
  end.

Definition GTO_expected (page : soup) : list (list string) * option (list string) :=
  match effective_headers (tables page) with
  | None => ([], None)
  | Some hs =>
      (GTO_marked hs <$> filter (λ r, GTO_selects hs r) (data_rows (tables page)),
       Some hs)
  end.

Definition DDT_expected (page : soup) : list (list string) * option (list string) :=
  match effective_headers (tables page) with
  | None => ([], None)
  | Some hs =>
      (cell_texts <$> filter (λ r, DDT_selects hs r) (data_rows (tables page)),
       Some hs)
  end.

(** The records of one table of the status page. *)
Definition status_records (t : table) : list Status.record :=
  (λ r, Py.dict_zip (status_headers t) (cell_texts r))
    <$> filter (λ r, Status_selects (status_headers t) r) (drop 1 t).

(** Some table has no row at all. *)
Definition has_empty_table (ts : list table) : bool :=
  existsb (λ t : table, match t with [] => true | _ :: _ => false end) ts.

Definition Status_expected (page : soup) : result (list Status.record * list string) :=
  if has_empty_table (tables page) then Raise IndexError
  else Return (concat (status_records <$> tables page),
               foldl Status.extend_new [] (status_headers <$> tables page)).

(** The fetch number [k] is the first that is not a caught failure, it is
    within the budget, and its response passes [raise_for_status]. *)
Definition succeeds_at (session : nat → result response) (retries : Z) (k : nat)
    (page : soup) : Prop :=
  Z.of_nat k < retries ∧
  (∀ i, (i < k)%nat → transient (session i)) ∧
  ∃ code, session k = Return (Response code page) ∧ good_status code.

(** The characters of a string. *)
Fixpoint chars (s : string) : list ascii :=
  match s with
  | EmptyString => []
  | String c s' => c :: chars s'
  end.

(** A page whose second table has no topic to go with. *)
Definition unpaired_page : soup :=
  Soup [text "Galaxies"]
       [[header_row ["Instrument/Mode"; "PI"];
         data_row ["NIRCam/Imaging"; "Jones"]];
        [header_row ["Instrument/Mode"; "PI"];
         data_row ["NIRSpec/MOS"; "Smith"]]].

(** The page of [status_page] followed by a table without any row. *)
Definition rowless_status_page : soup :=
  page_of [[status_row ["Observation"; "Template"; "Status"];
            status_row ["1"; "NIRSpec MultiObject Spectroscopy"; "Archived"]];
           []].

(** * Properties *)

(** ** Results and loops *)

Lemma bind_Return_inv {A B} (m : result A) (f : A → result B) (b : B) :
  m ≫= f = Return b → ∃ a, m = Return a ∧ f a = Return b.
Proof. destruct m as [a|e]; simpl; [eauto|done]. Qed.

Lemma only_raises_bind {A B} (P : exn → Prop) (m : result A) (f : A → result B) :
  only_raises P m → (∀ a, only_raises P (f a)) → only_raises P (m ≫= f).
Proof. destruct m as [a|e]; simpl; [intros _ H; apply H|done]. Qed.

Lemma only_raises_for_loop {S A} (P : exn → Prop) (body : S → A → result S) l :
  (∀ s a, only_raises P (body s a)) → ∀ s, only_raises P (for_loop body s l).
Proof.
  intros Hb. induction l as [|a l IH]; intros s; simpl; [done|].
  apply only_raises_bind; [apply Hb|apply IH].
Qed.

Lemma only_raises_index x l : only_raises lookup_error (Py.index x l).
Proof. unfold Py.index. destruct (Py.find_index x l); simpl; [done|by left]. Qed.

Lemma only_raises_getitem {A} (l : list A) i : only_raises lookup_error (Py.getitem l i).
Proof. unfold Py.getitem. destruct (l !! i); simpl; [done|by right]. Qed.

Lemma only_raises_getitem_int {A} (l : list A) i :
  only_raises lookup_error (Py.getitem_int l i).
Proof.
  unfold Py.getitem_int. destruct (_ <? 0); [by right|apply only_raises_getitem].
Qed.

(** The invariant rule of the [for] loop. *)
Lemma for_loop_invariant {S A} (I : S → Prop) (body : S → A → result S) l :
  (∀ s a s', a ∈ l → I s → body s a = Return s' → I s') →
  ∀ s s', I s → for_loop body s l = Return s' → I s'.
Proof.
  induction l as [|a l IH]; intros Hb s s' Hs; simpl.
  - by intros [= <-].
  - intros H. apply bind_Return_inv in H as (s1 & H1 & H2).
    eapply IH; [|eapply Hb; [left| |]; done|done].
    intros ? ? ? ?. apply Hb. by right.
Qed.

(** ** The retry loop of [get_observation_status] *)

Section RetryLoop.

Variable session : nat → result response.
Variable retries : Z.

Lemma try_block_transient r :
  transient r → ∃ e, Status.try_block r = Raise e ∧ Status.caught e = true.
Proof. intros [-> | ->]; eexists; split; reflexivity. Qed.

(** [k] caught failures in a row use [k] iterations, [k] calls and [k]
    units of the budget. *)
Lemma while_loop_retry (k : nat) :
  ∀ fuel attempt calls,
    (∀ i, (i < k)%nat → transient (session (calls + i)%nat)) →
    attempt + Z.of_nat k <= retries →
    Status.while_loop (k + fuel) session retries attempt calls
    = Status.while_loop fuel session retries (attempt + Z.of_nat k) (calls + k)%nat.
Proof.
  induction k as [|k IH]; intros fuel attempt calls Hpre Hle.
  - simpl. by rewrite Z.add_0_r, Nat.add_0_r.
  - destruct (try_block_transient (session calls)) as (e & He & Hc).
    { specialize (Hpre 0%nat). rewrite Nat.add_0_r in Hpre. apply Hpre. lia. }
    change (S k + fuel)%nat with (S (k + fuel)). simpl Status.while_loop.
    destruct (Z.ltb_spec attempt retries); [|lia].
    rewrite He, Hc, IH.
    + f_equal; lia.
    + intros i Hi. replace (S calls + i)%nat with (calls + S i)%nat by lia.
      apply Hpre. lia.
    + lia.
Qed.

(** The outcome once the first fetch that is not a caught failure is known. *)
Lemma while_loop_settles (k : nat) (r : result (list Status.record * list string)) :
  Z.of_nat k < retries →
  (∀ i, (i < k)%nat → transient (session i)) →
  Status.try_block (session k) = r →
  (∀ e, r = Raise e → Status.caught e = false) →
  get_observation_status session retries = Some (r, S k).
Proof.
  intros Hk Hpre Hr Hnc. unfold get_observation_status.
  replace (S (Z.to_nat retries)) with (k + S (Z.to_nat retries - k))%nat by lia.
  rewrite while_loop_retry; [|done|lia].
  simpl. destruct (Z.ltb_spec (0 + Z.of_nat k) retries); [|lia].
  rewrite Hr. destruct r as [v|e]; [done|]. by rewrite (Hnc e).
Qed.


(** The extraction raises nothing the retry loop catches: its only
    exceptions are failed subscripts and lookups. *)
Lemma extract_lookup_errors page : only_raises lookup_error (Status.extract page).
Proof.
  unfold Status.extract. destruct (tables page) as [|t ts]; [done|].
  apply only_raises_for_loop. intros [d hs] rows. unfold Status.table_body.
  apply only_raises_bind; [apply only_raises_getitem|]. intros row0.
  destruct (get_text <$> td row0) as [|h0 hs0]; [done|].
  apply only_raises_bind.
  { destruct (Py.mem _ _); [|done].
    apply only_raises_bind; [apply only_raises_index|done]. }
  intros ti. apply only_raises_bind; [|done].
  apply only_raises_for_loop. intros d' row. unfold Status.row_body.
  destruct (negb (_ =? _)%nat); [done|]. destruct (negb (ti =? -1)); [|done].
  apply only_raises_bind; [apply only_raises_getitem_int|].
  intros cell. by destruct (Py.contains _ _).
Qed.

Lemma extract_not_caught page e :
  Status.extract page = Raise e → Status.caught e = false.
Proof.
  intros He. pose proof (extract_lookup_errors page) as H. rewrite He in H.
  by destruct H as [-> | ->].
Qed.

Lemma try_block_accepted code page :
  good_status code →
  Status.try_block (Return (Response code page)) = Status.extract page.
Proof.
  intros Hg. unfold Status.try_block, raise_for_status. simpl.
  destruct (Z.leb_spec 400 code), (Z.ltb_spec code 600); simpl; try done.
  exfalso. apply Hg. lia.
Qed.

Lemma try_block_rejected code page :
  400 <= code < 600 →
  Status.try_block (Return (Response code page)) = Raise (HTTPError code).
Proof.
  intros Hb. unfold Status.try_block, raise_for_status. simpl.
  destruct (Z.leb_spec 400 code), (Z.ltb_spec code 600); simpl; try done; lia.
Qed.

End RetryLoop.

(** The fuel of [get_observation_status] is enough: the function is total. *)
Lemma while_loop_total session retries :
  ∀ fuel attempt calls,
    (Z.to_nat (retries - attempt) < fuel)%nat →
    is_Some (Status.while_loop fuel session retries attempt calls).
Proof.
  induction fuel as [|fuel IH]; intros attempt calls Hf; [lia|].
  simpl. destruct (Z.ltb_spec attempt retries); [|by eexists].
  destruct (Status.try_block _) as [v|e]; [by eexists|].
  destruct (Status.caught e); [|by eexists].
  apply IH. lia.
Qed.

Lemma get_observation_status_total session retries :
  is_Some (get_observation_status session retries).
Proof. apply while_loop_total. lia. Qed.



(** C5: a fetch that completes with a bad status code raises [HTTPError] out
    of the function at once; so does every exception other than a connection
    error or a timeout.  The fetches made are those up to and including the
    failing one. *)
Theorem status_http_error_propagates session retries (k : nat) :
  Z.of_nat k < retries →
  (∀ i, (i < k)%nat → transient (session i)) →
  (∀ code page,
      session k = Return (Response code page) →
      400 <= code < 600 →
      get_observation_status session retries = Some (Raise (HTTPError code), S k)) ∧
  (∀ e,
      session k = Raise e →
      e ≠ ConnectionError → e ≠ Timeout →
      get_observation_status session retries = Some (Raise e, S k)).
Proof.
  intros Hk Hpre. split.
  - intros code page Hs Hc. apply while_loop_settles; [done|done| |].
    + rewrite Hs. by apply try_block_rejected.
    + by intros ? [= <-].
  - intros e Hs H1 H2. apply while_loop_settles; [done|done| |].
    + by rewrite Hs.
    + intros ? [= <-]. by destruct e.
Qed.

Lemma status_http_error_propagates_witness :
  get_observation_status
    (λ n, if (n <? 1)%nat then Raise ConnectionError
          else Return (Response 503 status_page)) 3
  = Some (Raise (HTTPError 503), 2%nat).
Proof.
  refine (proj1 (status_http_error_propagates _ 3 1 _ _) 503 status_page _ _).
  - lia.
  - intros [|i] Hi; [by left|lia].
  - reflexivity.
  - lia.
Defined.

(** C6 at a status page whose second table has no row: the third fetch
    succeeds and no fetch follows it, but the function does not return: the
    subscript [rows[0]] fails and [IndexError] leaves it, with the record of
    the first table lost.  The three page extractors skip a table without
    rows ([if not rows: continue]) and return on the same tables. *)
Theorem status_rowless_table_raises :
  get_observation_status (flaky_session (ok rowless_status_page)) 5
  = Some (Raise IndexError, 3%nat) ∧
  extract_basic_info_from_GTO (ok rowless_status_page) = Return ([], Some []) ∧
  extract_basic_info_from_DDT (ok rowless_status_page) = Return ([], Some []) ∧
  extract_basic_info_from_GO
    (ok (Soup [text "a"; text "b"] (tables rowless_status_page))) "Cycle 1"
  = Return ([], Some []).
Proof. split_and!; by vm_compute. Qed.

(** ** check_csv *)

(** C7: with an "ID" column in both datasets, [check_csv] reports full
    coverage when the IDs of the first are a subset of the IDs of the second
    and otherwise reports the set difference, first minus second; for
    {"1","2","3"} against {"1","2"} the set reported is {"3"}. *)
Theorem check_csv_reports :
  (∀ (df1 df2 : dataframe) (ids1 ids2 : list string),
      df1 !! "ID" = Some ids1 →
      df2 !! "ID" = Some ids2 →
      ((list_to_set ids1 : gset string) ⊆ list_to_set ids2 →
       check_csv df1 df2 = Return [PrintStr "All checked"]) ∧
      ((list_to_set ids1 : gset string) ⊈ list_to_set ids2 →
       check_csv df1 df2
       = Return [PrintStr "Not all checked, missing:";
                 PrintSet (list_to_set ids1 ∖ list_to_set ids2)])) ∧
  check_csv {["ID" := ["1"; "2"; "3"]]} {["ID" := ["1"; "2"]]}
  = Return [PrintStr "Not all checked, missing:"; PrintSet {["3"]}].
Proof.
  split; [|by vm_compute].
  intros df1 df2 ids1 ids2 H1 H2. unfold check_csv, column. rewrite H1, H2. simpl.
  split; intros H; by case_bool_decide.
Qed.

Lemma check_csv_reports_witness :
  check_csv {["ID" := ["7"; "8"]]} {["ID" := ["8"; "9"; "7"]; "PI" := ["a"; "b"; "c"]]}
  = Return [PrintStr "All checked"].
Proof.
  refine (proj1 (proj1 check_csv_reports _ _ ["7"; "8"] ["8"; "9"; "7"] _ _) _).
  - reflexivity.
  - reflexivity.
  - apply (bool_decide_unpack _). vm_compute. exact I.
Defined.

(** A dataset without the column makes the lookup fail. *)
Lemma check_csv_missing_column (df1 df2 : dataframe) :
  df1 !! "ID" = None → check_csv df1 df2 = Raise KeyError.
Proof. intros H. unfold check_csv, column. by rewrite H. Qed.

(** ** The header vocabulary of [get_observation_status] *)

Lemma table_loop_headers (l : list table) :
  ∀ st st',
    for_loop Status.table_body st l = Return st' →
    st'.2 = foldl Status.extend_new st.2 (status_headers <$> l).
Proof.
  induction l as [|t l IH]; intros st st'; simpl.
  - by intros [= <-].
  - intros H. apply bind_Return_inv in H as (st1 & H1 & H2).
    rewrite (IH _ _ H2). f_equal. clear IH H2.
    destruct st as [d hs]. unfold Status.table_body in H1.
    apply bind_Return_inv in H1 as (row0 & Hrow & H1).
    destruct t as [|r0 rows]; [done|]. injection Hrow as <-. simpl.
    destruct (get_text <$> td r0) as [|h0 hs0] eqn:Hh.
    + injection H1 as <-. simpl. unfold Status.extend_new. simpl.
      by rewrite app_nil_r.
    + apply bind_Return_inv in H1 as (ti & _ & H1).
      apply bind_Return_inv in H1 as (d' & _ & H1).
      injection H1 as <-. done.
Qed.

(** The header list returned is the table headers merged from left to right. *)
Lemma extract_headers page data all_headers :
  Status.extract page = Return (data, all_headers) →
  all_headers = foldl Status.extend_new [] (status_headers <$> tables page).
Proof.
  unfold Status.extract. destruct (tables page) as [|t ts] eqn:Ht.
  - by intros [= <- <-].
  - intros H. by apply table_loop_headers in H.
Qed.

Lemma filter_not_in_snoc (acc hs : list string) h :
  h ∉ hs →
  filter (λ x, x ∉ acc ++ [h]) hs = filter (λ x, x ∉ acc) hs.
Proof.
  intros Hh. induction hs as [|x hs IH]; [done|].
  apply not_elem_of_cons in Hh as [Hx Hh].
  rewrite !filter_cons, IH by done.
  destruct (decide (x ∉ acc ++ [h])) as [H1|H1], (decide (x ∉ acc)) as [H2|H2];
    try done; exfalso.
  - apply H2. intros Hin. apply H1, elem_of_app. by left.
  - apply H1. intros [Hin|Hin%list_elem_of_singleton]%elem_of_app; done.
Qed.

(** Where a header row repeats no name, the merge of the source is the
    one-at-a-time merge of the spec. *)
Lemma extend_new_append_if_new (hs : list string) :
  NoDup hs → ∀ acc, Status.extend_new acc hs = foldl append_if_new acc hs.
Proof.
  unfold Status.extend_new.
  induction 1 as [|h hs Hh Hnd IH]; intros acc; simpl.
  - by rewrite filter_nil, app_nil_r.
  - rewrite filter_cons. unfold append_if_new at 2.
    destruct (decide (h ∉ acc)) as [H|H].
    + rewrite bool_decide_eq_false_2 by done.
      rewrite <- IH, filter_not_in_snoc by done. by rewrite <- app_assoc.
    + rewrite bool_decide_eq_true_2; [apply IH|].
      by destruct (decide (h ∈ acc)).
Qed.

Lemma append_if_new_NoDup (names : list string) :
  ∀ acc, NoDup acc → NoDup (foldl append_if_new acc names).
Proof.
  induction names as [|x names IH]; intros acc Hacc; simpl; [done|].
  apply IH. unfold append_if_new. case_bool_decide; [done|].
  apply NoDup_app. split_and!; [done| |apply NoDup_singleton].
  intros y Hy ->%list_elem_of_singleton. done.
Qed.

Lemma first_appearance_union_NoDup hss : NoDup (first_appearance_union hss).
Proof. apply append_if_new_NoDup, NoDup_nil_2. Qed.

Lemma merge_headers_first_appearance (hss : list (list string)) :
  Forall NoDup hss →
  ∀ acc, foldl Status.extend_new acc hss = foldl append_if_new acc (concat hss).
Proof.
  induction 1 as [|hs hss Hnd _ IH]; intros acc; simpl; [done|].
  by rewrite foldl_app, IH, extend_new_append_if_new.
Qed.

(** On pages whose tables repeat no header name within a header row, the
    header list returned is the union in order of first appearance. *)
Lemma status_headers_first_appearance session retries (k : nat) code page data all_headers :
  Z.of_nat k < retries →
  (∀ i, (i < k)%nat → transient (session i)) →
  session k = Return (Response code page) →
  good_status code →
  Forall (λ t, NoDup (status_headers t)) (tables page) →
  get_observation_status session retries = Some (Return (data, all_headers), S k) →
  all_headers = first_appearance_union (status_headers <$> tables page) ∧
  NoDup all_headers.
Proof.
  intros Hk Hpre Hs Hg Hnd Hget.
  rewrite (while_loop_settles session retries k (Status.extract page)) in Hget;
    [|done|done|rewrite Hs; by apply try_block_accepted|apply extract_not_caught].
  injection Hget as He. apply extract_headers in He.
  assert (all_headers = first_appearance_union (status_headers <$> tables page)) as ->.
  { rewrite He. apply merge_headers_first_appearance. by apply Forall_fmap. }
  split; [done|apply first_appearance_union_NoDup].
Qed.

(** C8 at a page whose only table has the header row Visit, Status, Status:
    the name "Status" is returned twice, where the union in order of first
    appearance has it once. *)
Theorem status_headers_repeat_within_table :
  get_observation_status
    (λ _, ok (page_of [[status_row ["Visit"; "Status"; "Status"]]])) 3
  = Some (Return ([], ["Visit"; "Status"; "Status"]), 1%nat) ∧
  ¬ NoDup ["Visit"; "Status"; "Status"] ∧
  first_appearance_union [["Visit"; "Status"; "Status"]] = ["Visit"; "Status"].
Proof.
  split_and!; [by vm_compute| |by vm_compute].
  intros H. apply NoDup_cons in H as [_ H]. apply NoDup_cons in H as [H _].
  apply H. by left.
Qed.

(** ** The table loop of the page extractors *)

Lemma for_loop_ext {S A} (body1 body2 : S → A → result S) l :
  (∀ s a, a ∈ l → body1 s a = body2 s a) →
  ∀ s, for_loop body1 s l = for_loop body2 s l.
Proof.
  induction l as [|a l IH]; intros Hb s; simpl; [done|].
  rewrite Hb by left. destruct (body2 s a); simpl; [|done].
  apply IH. intros ? ? ?. apply Hb. by right.
Qed.

Lemma for_loop_fmap {S A B} (f : A → B) (body : S → B → result S) l :
  ∀ s, for_loop body s (f <$> l) = for_loop (λ s a, body s (f a)) s l.
Proof.
  induction l as [|a l IH]; intros s; simpl; [done|].
  destruct (body s (f a)); simpl; [apply IH|done].
Qed.

(** A loop whose body appends at most one item per step. *)
Lemma for_loop_appends {A B} (Q : A → B → Prop)
    (body : list B → A → result (list B)) :
  (∀ d a d', body d a = Return d' → d' = d ∨ ∃ b, d' = d ++ [b] ∧ Q a b) →
  ∀ l d d',
    for_loop body d l = Return d' →
    ∃ new, d' = d ++ new ∧ Forall (λ b, ∃ a, a ∈ l ∧ Q a b) new.
Proof.
  intros Hb. induction l as [|a l IH]; intros d d'; simpl.
  - intros [= <-]. exists []. by rewrite app_nil_r.
  - intros H. apply bind_Return_inv in H as (d1 & H1 & H2).
    apply IH in H2 as (new & -> & Hnew).
    assert (Forall (λ b, ∃ a0, a0 ∈ a :: l ∧ Q a0 b) new) as Hnew'.
    { eapply Forall_impl; [done|]. intros b (a0 & ? & ?). exists a0.
      split; [by right|done]. }
    apply Hb in H1 as [-> | (b & -> & Hq)].
    + by exists new.
    + exists (b :: new). split; [by rewrite <- app_assoc|].
      constructor; [|done]. exists a. split; [by left|done].
Qed.

Section TableLoop.

Context {T : Type} (rows_of : T → table).
Context (row_body : list string → T → list (list string) → tr
                    → result (list (list string))).

Lemma table_step_fixed hs d item :
  table_step rows_of row_body (d, Some hs) item
  = (d' ← rows_step rows_of (row_body hs) d item; mret (d', Some hs)).
Proof. unfold table_step, rows_step. by destruct (rows_of item). Qed.

Lemma table_loop_fixed hs items :
  ∀ d, for_loop (table_step rows_of row_body) (d, Some hs) items
       = (d' ← for_loop (rows_step rows_of (row_body hs)) d items;
          mret (d', Some hs)).
Proof.
  induction items as [|item items IH]; intros d; [done|].
  cbn [for_loop]. rewrite table_step_fixed.
  destruct (rows_step rows_of (row_body hs) d item); simpl; [apply IH|done].
Qed.

Lemma table_step_empty st item :
  rows_of item = [] → table_step rows_of row_body st item = Return st.
Proof. intros H. unfold table_step. destruct st. by rewrite H. Qed.

Lemma table_step_first d item row0 rows1 :
  rows_of item = row0 :: rows1 →
  table_step rows_of row_body (d, None) item
  = table_step rows_of row_body (d, Some (get_text <$> th row0)) item.
Proof. intros H. unfold table_step. by rewrite H. Qed.

Lemma effective_headers_cons (t : table) ts :
  effective_headers (t :: ts)
  = match t with [] => effective_headers ts | _ :: _ => Some (header_texts t) end.
Proof. by destruct t. Qed.

(** Starting without headers is starting with the headers of the first
    table that has a row. *)
Lemma table_loop_start items :
  ∀ d, for_loop (table_step rows_of row_body) (d, None) items
       = for_loop (table_step rows_of row_body)
           (d, effective_headers (rows_of <$> items)) items.
Proof.
  induction items as [|item items IH]; intros d; [done|].
  rewrite fmap_cons, effective_headers_cons. cbn [for_loop].
  destruct (rows_of item) as [|row0 rows1] eqn:Hr.
  - rewrite !table_step_empty by done. apply IH.
  - by rewrite (table_step_first _ _ _ _ Hr).
Qed.

Lemma table_loop_no_rows items :
  effective_headers (rows_of <$> items) = None →
  ∀ d, for_loop (table_step rows_of row_body) (d, None) items = Return (d, None).
Proof.
  induction items as [|item items IH]; intros He d; [done|].
  rewrite fmap_cons, effective_headers_cons in He. cbn [for_loop].
  destruct (rows_of item) as [|row0 rows1] eqn:Hr; [|done].
  rewrite table_step_empty by done. by apply IH.
Qed.

(** The whole loop: the headers are the effective headers and the data are
    collected by the nested loops run under them. *)
Lemma table_loop_nested items :
  for_loop (table_step rows_of row_body) ([], None) items
  = match effective_headers (rows_of <$> items) with
    | Some hs =>
        d ← for_loop (rows_step rows_of (row_body hs)) [] items;
        mret (d, Some hs)
    | None => Return ([], None)
    end.
Proof.
  destruct (effective_headers (rows_of <$> items)) as [hs|] eqn:He.
  - by rewrite table_loop_start, He, table_loop_fixed.
  - by apply table_loop_no_rows.
Qed.

Lemma nested_loop_appends hs (Q : T → tr → list string → Prop) :
  (∀ item d r d', row_body hs item d r = Return d' →
                  d' = d ∨ ∃ b, d' = d ++ [b] ∧ Q item r b) →
  ∀ items d d',
    for_loop (rows_step rows_of (row_body hs)) d items = Return d' →
    ∃ new, d' = d ++ new ∧
           Forall (λ b, ∃ item r, item ∈ items ∧ r ∈ drop 1 (rows_of item) ∧
                                  Q item r b) new.
Proof.
  intros Hb. induction items as [|item items IH]; intros d d'; simpl.
  - intros [= <-]. exists []. by rewrite app_nil_r.
  - intros H. apply bind_Return_inv in H as (d1 & H1 & H2).
    apply IH in H2 as (new2 & -> & Hnew2).
    apply (for_loop_appends (Q item)) in H1 as (new1 & -> & Hnew1);
      [|apply Hb].
    exists (new1 ++ new2). split; [by rewrite app_assoc|].
    apply Forall_app. split.
    + eapply Forall_impl; [done|]. intros b (r & ? & ?).
      exists item, r. split_and!; [by left|done|done].
    + eapply Forall_impl; [done|]. intros b (it & r & ? & ? & ?).
      exists it, r. split_and!; [by right|done|done].
Qed.

(** Soundness of the table loop for a property of the emitted rows. *)
Lemma table_loop_sound (Q : list string → T → tr → list string → Prop) items data headers :
  (∀ hs item d r d', row_body hs item d r = Return d' →
                     d' = d ∨ ∃ b, d' = d ++ [b] ∧ Q hs item r b) →
  for_loop (table_step rows_of row_body) ([], None) items = Return (data, headers) →
  headers = effective_headers (rows_of <$> items) ∧
  ∀ row, row ∈ data →
    ∃ hs item r, headers = Some hs ∧ item ∈ items ∧
                 r ∈ drop 1 (rows_of item) ∧ Q hs item r row.
Proof.
  intros Hb. rewrite table_loop_nested.
  destruct (effective_headers (rows_of <$> items)) as [hs|].
  - intros H. apply bind_Return_inv in H as (d & H & [= <- <-]).
    split; [done|]. intros row Hrow.
    apply (nested_loop_appends hs (Q hs)) in H as (new & -> & Hnew); [|apply Hb].
    rewrite Forall_forall in Hnew.
    destruct (Hnew row Hrow) as (item & r & ? & ? & ?). by exists hs, item, r.
  - intros [= <- <-]. split; [done|]. by intros row ?%elem_of_nil.
Qed.

End TableLoop.

Lemma GO_table_body_step cycle st item :
  GO.table_body cycle st item = table_step snd (GO_row_body cycle) st item.
Proof. destruct st as [d h], item as [topic [|row0 rows]]; reflexivity. Qed.

Lemma GTO_table_body_step st t :
  GTO.table_body st t = table_step id (λ hs _, GTO.row_body hs) st t.
Proof. destruct st as [d h], t as [|row0 rows]; reflexivity. Qed.

Lemma DDT_table_body_step st t :
  DDT.table_body st t = table_step id (λ hs _, DDT.row_body hs) st t.
Proof. destruct st as [d h], t as [|row0 rows]; reflexivity. Qed.

Lemma GO_parse_step page cycle :
  GO.parse page cycle
  = for_loop (table_step snd (GO_row_body cycle)) ([], None)
      (zip (topics page) (tables page)).
Proof. apply for_loop_ext. intros. apply GO_table_body_step. Qed.

Lemma GTO_parse_step page :
  GTO.parse page
  = for_loop (table_step id (λ hs _, GTO.row_body hs)) ([], None) (tables page).
Proof. apply for_loop_ext. intros. apply GTO_table_body_step. Qed.

Lemma DDT_parse_step page :
  DDT.parse page
  = for_loop (table_step id (λ hs _, DDT.row_body hs)) ([], None) (tables page).
Proof. apply for_loop_ext. intros. apply DDT_table_body_step. Qed.

(** ** Lookups *)

Lemma mem_true x l : Py.mem x l = true ↔ x ∈ l.
Proof. unfold Py.mem. apply bool_decide_eq_true. Qed.

Lemma mem_false x l : Py.mem x l = false ↔ x ∉ l.
Proof. unfold Py.mem. apply bool_decide_eq_false. Qed.

Lemma find_index_Some x l i :
  Py.find_index x l = Some i → l !! i = Some x ∧ (i < length l)%nat.
Proof.
  revert i. induction l as [|y l IH]; intros i; simpl; [done|].
  case_bool_decide as Hxy.
  - intros [= <-]. subst. split; [done|lia].
  - destruct (Py.find_index x l) as [j|]; [|done]. intros [= <-].
    destruct (IH j eq_refl). split; [done|lia].
Qed.

Lemma find_index_None x l : Py.find_index x l = None ↔ x ∉ l.
Proof.
  induction l as [|y l IH]; simpl.
  - split; [intros _; apply not_elem_of_nil|done].
  - case_bool_decide as Hxy.
    + split; [done|]. intros H. exfalso. apply H. subst. by left.
    + rewrite not_elem_of_cons, <- IH.
      destruct (Py.find_index x l); simpl; split; try done.
      by intros [_ ?].
Qed.

Lemma find_index_is_Some x l : x ∈ l → is_Some (Py.find_index x l).
Proof.
  intros Hx. destruct (Py.find_index x l) eqn:H; [by eexists|].
  by apply find_index_None in H.
Qed.

Lemma index_Return x l i : Py.index x l = Return i ↔ Py.find_index x l = Some i.
Proof.
  unfold Py.index. destruct (Py.find_index x l); split; intros H; by inversion H.
Qed.

Lemma index_missing x l : x ∉ l → Py.index x l = Raise ValueError.
Proof. intros H%find_index_None. unfold Py.index. by rewrite H. Qed.

Lemma getitem_Return {A} (l : list A) i a : Py.getitem l i = Return a ↔ l !! i = Some a.
Proof. unfold Py.getitem. destruct (l !! i); split; intros H; by inversion H. Qed.

(** A column found in the headers of a row of the same length has a cell. *)
Lemma column_cell x (hs : list string) (cols : list element) :
  length cols = length hs → x ∈ hs →
  ∃ i col, Py.index x hs = Return i ∧ Py.getitem cols i = Return col.
Proof.
  intros Hlen [i Hi]%find_index_is_Some.
  destruct (find_index_Some _ _ _ Hi) as [_ Hlt].
  destruct (lookup_lt_is_Some_2 cols i) as [col Hcol]; [lia|].
  exists i, col. by rewrite index_Return, getitem_Return.
Qed.

(** ** The rows the page extractors emit *)

Lemma length_eqb_false (cols : list element) (hs : list string) :
  negb (length cols =? length hs)%nat = false ↔ length cols = length hs.
Proof. rewrite negb_false_iff. apply Nat.eqb_eq. Qed.

Lemma GO_instrument_mode_Return hs cols mode :
  GO.instrument_mode hs cols = Return mode →
  ∃ i col, Py.find_index (GO_column hs) hs = Some i ∧ cols !! i = Some col ∧
           mode = GO.normalize (get_text col).
Proof.
  unfold GO.instrument_mode, GO_column.
  destruct (Py.mem "Instrument/ Mode" hs); simpl; intros H;
    apply bind_Return_inv in H as (i & Hi%index_Return & H);
    apply bind_Return_inv in H as (col & Hc%getitem_Return & [= <-]);
    by exists i, col.
Qed.

Lemma GO_row_body_cases hs topic cycle d r d' :
  GO.row_body hs topic cycle d r = Return d' →
  d' = d ∨ ∃ b, d' = d ++ [b] ∧ GO_row_of hs topic cycle r b.
Proof.
  unfold GO.row_body.
  destruct (negb _) eqn:Hlen; [intros [= <-]; by left|].
  apply length_eqb_false in Hlen. intros H.
  apply bind_Return_inv in H as (mode & Hm & H).
  destruct (Py.contains _ mode) eqn:Hc; [|injection H as <-; by left].
  injection H as <-. right. eexists. split; [done|].
  apply GO_instrument_mode_Return in Hm as (i & col & Hi & Hcol & ->).
  split_and!; [done|done|]. unfold cell_matches. rewrite Hi.
  rewrite <- app_assoc, lookup_app_l_Some with (x := get_text col); [done|].
  by rewrite list_lookup_fmap, Hcol.
Qed.

Lemma GTO_instrument_mode_Return hs cols mode :
  GTO.instrument_mode hs cols = Return (Some mode) →
  ∃ i col, Py.find_index (GTO_column hs) hs = Some i ∧ cols !! i = Some col ∧
           mode = get_text col.
Proof.
  unfold GTO.instrument_mode, GTO_column.
  destruct (Py.mem "Instrument/Mode" hs); simpl;
    [|destruct (Py.mem "Instrument/ Mode" hs); [|done]]; intros H;
    apply bind_Return_inv in H as (i & Hi%index_Return & H);
    apply bind_Return_inv in H as (col & Hc%getitem_Return & [= <-]);
    by exists i, col.
Qed.

(** The emitted row of [GTO.row_data]: the cell texts, with "AR" written
    over the "AR?" cell when that cell holds an image. *)
Lemma GTO_row_data_Return hs cols row :
  GTO.row_data hs cols = Return row →
  row = get_text <$> cols ∨
  ∃ i col, Py.find_index "AR?" hs = Some i ∧ cols !! i = Some col ∧
           find_img col = true ∧ row = <[i := "AR"]> (get_text <$> cols).
Proof.
  unfold GTO.row_data. destruct (Py.mem "AR?" hs); [|intros [= <-]; by left].
  intros H. apply bind_Return_inv in H as (i & Hi%index_Return & H).
  apply bind_Return_inv in H as (col & Hc%getitem_Return & H).
  destruct (find_img col) eqn:Himg; [|injection H as <-; by left].
  unfold Py.setitem in H. case_bool_decide; [|done]. injection H as <-.
  right. by exists i, col.
Qed.

Lemma GTO_row_data_other hs cols row j name :
  GTO.row_data hs cols = Return row →
  hs !! j = Some name → name ≠ "AR?" →
  row !! j = (get_text <$> cols) !! j.
Proof.
  intros [-> | (i & col & Hi & _ & _ & ->)]%GTO_row_data_Return Hj Hname; [done|].
  apply find_index_Some in Hi as [Hi _].
  apply list_lookup_insert_ne. intros ->. congruence.
Qed.

Lemma GTO_column_not_AR hs : GTO_column hs ≠ "AR?".
Proof. unfold GTO_column. by destruct (Py.mem _ _). Qed.

Lemma GTO_row_body_cases hs d r d' :
  GTO.row_body hs d r = Return d' →
  d' = d ∨ ∃ b, d' = d ++ [b] ∧ GTO_row_of hs r b.
Proof.
  unfold GTO.row_body.
  destruct (negb _) eqn:Hlen; [intros [= <-]; by left|].
  apply length_eqb_false in Hlen. intros H.
  apply bind_Return_inv in H as ([mode|] & Hm & H); [|injection H as <-; by left].
  destruct (Py.contains _ mode) eqn:Hc; [|injection H as <-; by left].
  apply bind_Return_inv in H as (rd & Hrd & [= <-]).
  right. exists rd. split; [done|].
  apply GTO_instrument_mode_Return in Hm as (i & col & Hi & Hcol & ->).
  split_and!; [done|done|]. unfold cell_matches. rewrite Hi.
  destruct (find_index_Some _ _ _ Hi) as [Hhs _].
  rewrite (GTO_row_data_other hs (td r) rd i _ Hrd Hhs (GTO_column_not_AR hs)).
  by rewrite list_lookup_fmap, Hcol.
Qed.

Lemma DDT_row_body_cases hs d r d' :
  DDT.row_body hs d r = Return d' →
  d' = d ∨ ∃ b, d' = d ++ [b] ∧ DDT_row_of hs r b.
Proof.
  unfold DDT.row_body.
  destruct (negb _) eqn:Hlen; [intros [= <-]; by left|].
  apply length_eqb_false in Hlen. intros H.
  apply bind_Return_inv in H as ([mode|] & Hm & H); [|injection H as <-; by left].
  destruct (Py.contains _ mode) eqn:Hc; [|injection H as <-; by left].
  injection H as <-. right. eexists. split; [done|].
  unfold DDT.instrument_mode in Hm. destruct (Py.mem "Instruments" hs); [|done].
  apply bind_Return_inv in Hm as (i & Hi%index_Return & Hm).
  apply bind_Return_inv in Hm as (col & Hcol%getitem_Return & [= <-]).
  split_and!; [done|done|]. unfold cell_matches.
  by rewrite Hi, list_lookup_fmap, Hcol.
Qed.

(** What the three parsers return: the effective headers, and rows that
    each come from a data row of the page. *)
Lemma GO_parse_sound page cycle data headers :
  GO.parse page cycle = Return (data, headers) →
  headers = effective_headers (paired_tables page) ∧
  ∀ row, row ∈ data →
    ∃ hs item r, headers = Some hs ∧ item ∈ zip (topics page) (tables page) ∧
                 r ∈ drop 1 item.2 ∧ GO_row_of hs (get_text item.1) cycle r row.
Proof.
  rewrite GO_parse_step. intros H.
  apply (table_loop_sound snd (GO_row_body cycle)
           (λ hs item, GO_row_of hs (get_text item.1) cycle)) in H; [done|].
  intros hs item d r d'. apply GO_row_body_cases.
Qed.

Lemma GTO_parse_sound page data headers :
  GTO.parse page = Return (data, headers) →
  headers = effective_headers (tables page) ∧
  ∀ row, row ∈ data →
    ∃ hs r, headers = Some hs ∧ data_row_of (tables page) r ∧ GTO_row_of hs r row.
Proof.
  rewrite GTO_parse_step. intros H.
  apply (table_loop_sound id _ (λ hs _, GTO_row_of hs)) in H;
    [|intros hs item d r d'; apply GTO_row_body_cases].
  rewrite list_fmap_id in H. destruct H as [-> H]. split; [done|].
  intros row Hrow. destruct (H row Hrow) as (hs & t & r & ? & ? & ? & ?).
  exists hs, r. split_and!; [done| |done]. by exists t.
Qed.

Lemma DDT_parse_sound page data headers :
  DDT.parse page = Return (data, headers) →
  headers = effective_headers (tables page) ∧
  ∀ row, row ∈ data →
    ∃ hs r, headers = Some hs ∧ data_row_of (tables page) r ∧ DDT_row_of hs r row.
Proof.
  rewrite DDT_parse_step. intros H.
  apply (table_loop_sound id _ (λ hs _, DDT_row_of hs)) in H;
    [|intros hs item d r d'; apply DDT_row_body_cases].
  rewrite list_fmap_id in H. destruct H as [-> H]. split; [done|].
  intros row Hrow. destruct (H row Hrow) as (hs & t & r & ? & ? & ? & ?).
  exists hs, r. split_and!; [done| |done]. by exists t.
Qed.

(** A page extractor returns what its parser returns on a fetched page. *)
Lemma fetched_Return {A} (get : result response) (parse : soup → result A) (x : A) :
  (response ← get; _ ← raise_for_status response; parse (content response)) = Return x →
  ∃ code page, get = Return (Response code page) ∧ good_status code ∧
               parse page = Return x.
Proof.
  intros H. apply bind_Return_inv in H as ([code page] & -> & H).
  apply bind_Return_inv in H as ([] & Hs & H). exists code, page.
  split_and!; [done| |done]. unfold raise_for_status in Hs. simpl in Hs.
  intros Hbad. destruct (Z.leb_spec 400 code), (Z.ltb_spec code 600); try done; lia.
Qed.

Lemma fetched_good {A} code page (parse : soup → result A) :
  good_status code →
  (response ← Return (Response code page); _ ← raise_for_status response;
   parse (content response)) = parse page.
Proof.
  intros Hg. simpl. unfold raise_for_status. simpl.
  destruct (Z.leb_spec 400 code), (Z.ltb_spec code 600); try done.
  exfalso. apply Hg. lia.
Qed.

Lemma GO_fetched get cycle x :
  extract_basic_info_from_GO get cycle = Return x →
  ∃ code page, get = Return (Response code page) ∧ good_status code ∧
               GO.parse page cycle = Return x.
Proof. apply (fetched_Return get (λ page, GO.parse page cycle)). Qed.

Lemma GTO_fetched get x :
  extract_basic_info_from_GTO get = Return x →
  ∃ code page, get = Return (Response code page) ∧ good_status code ∧
               GTO.parse page = Return x.
Proof. apply (fetched_Return get GTO.parse). Qed.

Lemma DDT_fetched get x :
  extract_basic_info_from_DDT get = Return x →
  ∃ code page, get = Return (Response code page) ∧ good_status code ∧
               DDT.parse page = Return x.
Proof. apply (fetched_Return get DDT.parse). Qed.

(** C1: every row that an extractor returns has, in the instrument column of
    the returned headers, a cell that contains the filter substring: for GO
    the cell with newlines, carriage returns and spaces removed contains
    "NIRSpec/MOS"; for GTO the cell contains "NIRSpec/MOS"; for DDT the
    "Instruments" cell contains "NIRSpec".  No other row is in the data. *)
Theorem emitted_rows_match_filter :
  (∀ get cycle data headers row,
      extract_basic_info_from_GO get cycle = Return (data, headers) →
      row ∈ data →
      ∃ hs, headers = Some hs ∧
            cell_matches (GO_column hs) GO.normalize "NIRSpec/MOS" hs row = true) ∧
  (∀ get data headers row,
      extract_basic_info_from_GTO get = Return (data, headers) →
      row ∈ data →
      ∃ hs, headers = Some hs ∧
            cell_matches (GTO_column hs) id "NIRSpec/MOS" hs row = true) ∧
  (∀ get data headers row,
      extract_basic_info_from_DDT get = Return (data, headers) →
      row ∈ data →
      ∃ hs, headers = Some hs ∧
            cell_matches "Instruments" id "NIRSpec" hs row = true).
Proof.
  split_and!.
  - intros get cycle data headers row (code & page & _ & _ & H)%GO_fetched Hrow.
    apply GO_parse_sound in H as [_ H].
    destruct (H row Hrow) as (hs & item & r & -> & _ & _ & _ & _ & Hm).
    by exists hs.
  - intros get data headers row (code & page & _ & _ & H)%GTO_fetched Hrow.
    apply GTO_parse_sound in H as [_ H].
    destruct (H row Hrow) as (hs & r & -> & _ & _ & _ & Hm). by exists hs.
  - intros get data headers row (code & page & _ & _ & H)%DDT_fetched Hrow.
    apply DDT_parse_sound in H as [_ H].
    destruct (H row Hrow) as (hs & r & -> & _ & _ & _ & Hm). by exists hs.
Qed.

Lemma emitted_rows_match_filter_witness :
  (∃ hs, Some ["Instrument/Mode"; "PI"; "ID"] = Some hs ∧
         cell_matches (GO_column hs) GO.normalize "NIRSpec/MOS" hs
           ["NIRSpec/MOS Prism"; "Smith"; "GO-001"; "Galaxies"; "Cycle 1"] = true) ∧
  (∃ hs, Some ["ID"; "Instruments"] = Some hs ∧
         cell_matches "Instruments" id "NIRSpec" hs ["2756"; "NIRSpec, NIRCam"] = true).
Proof.
  split.
  - refine (proj1 emitted_rows_match_filter (ok GO_page) "Cycle 1" _ _ _ _ _).
    + vm_compute. reflexivity.
    + left.
  - refine (proj2 (proj2 emitted_rows_match_filter) (ok DDT_page) _ _ _ _ _).
    + vm_compute. reflexivity.
    + left.
Defined.

(** ** Cell counts *)

Lemma GTO_row_data_length hs cols row :
  GTO.row_data hs cols = Return row → length row = length cols.
Proof.
  intros [-> | (i & col & _ & _ & _ & ->)]%GTO_row_data_Return.
  - by rewrite length_fmap.
  - by rewrite length_insert, length_fmap.
Qed.

Lemma status_row_body_cases hs ti d r d' :
  Status.row_body hs ti d r = Return d' →
  d' = d ∨ ∃ rec, d' = d ++ [rec] ∧
     length (td r) = length hs ∧ rec = Py.dict_zip hs (get_text <$> td r).
Proof.
  unfold Status.row_body.
  destruct (negb _) eqn:Hlen; [intros [= <-]; by left|].
  apply length_eqb_false in Hlen.
  destruct (negb (ti =? -1)); [|intros [= <-]; by left].
  intros H. apply bind_Return_inv in H as (cell & _ & H).
  destruct (Py.contains _ cell); injection H as <-; [|by left].
  right. by eexists.
Qed.

Lemma status_table_body_sound (ts : list table) st t st' :
  t ∈ ts →
  Forall (λ rec, ∃ t, t ∈ ts ∧ status_record_of t rec) st.1 →
  Status.table_body st t = Return st' →
  Forall (λ rec, ∃ t, t ∈ ts ∧ status_record_of t rec) st'.1.
Proof.
  intros Ht Hst. destruct st as [d hs]. unfold Status.table_body.
  intros H. apply bind_Return_inv in H as (row0 & Hrow0%getitem_Return & H).
  destruct (get_text <$> td row0) as [|h0 hs0] eqn:Hh; [by injection H as <-|].
  apply bind_Return_inv in H as (ti & _ & H).
  apply bind_Return_inv in H as (d' & Hd & [= <-]). simpl in *.
  apply (for_loop_appends
           (λ r rec, length (td r) = length (h0 :: hs0)
                     ∧ rec = Py.dict_zip (h0 :: hs0) (get_text <$> td r)))
    in Hd as (new & -> & Hnew); [|intros ? ? ?; apply status_row_body_cases].
  apply Forall_app. split; [done|].
  eapply Forall_impl; [done|]. intros rec (r & Hr & Hlen & ->).
  exists t. split; [done|]. exists row0, r. rewrite Hh.
  split_and!; [done|done| |done].
  by rewrite Hlen, <- Hh, length_fmap.
Qed.

Lemma status_extract_sound page data all_headers rec :
  Status.extract page = Return (data, all_headers) →
  rec ∈ data → ∃ t, t ∈ tables page ∧ status_record_of t rec.
Proof.
  unfold Status.extract. destruct (tables page) as [|t0 ts] eqn:Ht.
  { intros [= <- <-]. by intros ?%elem_of_nil. }
  intros H Hrec.
  apply (for_loop_invariant
           (λ st, Forall (λ rec, ∃ t, t ∈ t0 :: ts ∧ status_record_of t rec) st.1))
    in H.
  - simpl in H. rewrite Forall_forall in H. by apply H.
  - intros st t st' Hin Hst Hb. by eapply status_table_body_sound.
  - by constructor.
Qed.

(** C3, as the code has it: the cell count of a row of the three page
    extractors is the count of the returned headers, which are the headers
    of the first table that has a row (GO appends two cells to the row);
    a status record is built from a row that has as many cells as the first
    row of its own table. *)
Theorem emitted_rows_have_effective_header_count :
  (∀ code page cycle data headers row,
      extract_basic_info_from_GO (Return (Response code page)) cycle
      = Return (data, headers) →
      row ∈ data →
      ∃ hs, headers = Some hs ∧ effective_headers (paired_tables page) = Some hs ∧
            length row = (length hs + 2)%nat) ∧
  (∀ code page data headers row,
      extract_basic_info_from_GTO (Return (Response code page))
      = Return (data, headers) →
      row ∈ data →
      ∃ hs, headers = Some hs ∧ effective_headers (tables page) = Some hs ∧
            length row = length hs) ∧
  (∀ code page data headers row,
      extract_basic_info_from_DDT (Return (Response code page))
      = Return (data, headers) →
      row ∈ data →
      ∃ hs, headers = Some hs ∧ effective_headers (tables page) = Some hs ∧
            length row = length hs) ∧
  (∀ session retries (k : nat) code page data all_headers rec,
      Z.of_nat k < retries →
      (∀ i, (i < k)%nat → transient (session i)) →
      session k = Return (Response code page) →
      good_status code →
      get_observation_status session retries
      = Some (Return (data, all_headers), S k) →
      rec ∈ data →
      ∃ t, t ∈ tables page ∧ status_record_of t rec).
Proof.
  split_and!.
  - intros code page cycle data headers row
      (code' & page' & [= <- <-] & _ & H)%GO_fetched Hrow.
    apply GO_parse_sound in H as [Hh H].
    destruct (H row Hrow) as (hs & item & r & -> & _ & _ & Hlen & -> & _).
    exists hs. split_and!; [done|done|].
    rewrite !length_app, length_fmap, Hlen. simpl. lia.
  - intros code page data headers row
      (code' & page' & [= <- <-] & _ & H)%GTO_fetched Hrow.
    apply GTO_parse_sound in H as [Hh H].
    destruct (H row Hrow) as (hs & r & -> & _ & Hlen & Hrd & _).
    exists hs. split_and!; [done|done|].
    by rewrite (GTO_row_data_length _ _ _ Hrd).
  - intros code page data headers row
      (code' & page' & [= <- <-] & _ & H)%DDT_fetched Hrow.
    apply DDT_parse_sound in H as [Hh H].
    destruct (H row Hrow) as (hs & r & -> & _ & Hlen & -> & _).
    exists hs. split_and!; [done|done|]. by rewrite length_fmap.
  - intros session retries k code page data all_headers rec Hk Hpre Hs Hg Hget Hrec.
    rewrite (while_loop_settles session retries k (Status.extract page)) in Hget;
      [|done|done|rewrite Hs; by apply try_block_accepted|apply extract_not_caught].
    injection Hget as He. by eapply status_extract_sound.
Qed.

Lemma emitted_rows_have_effective_header_count_witness :
  ∃ hs, Some ["Instrument/Mode"; "PI"] = Some hs ∧
        effective_headers (tables two_table_page) = Some hs ∧
        length ["NIRSpec/MOS"; "Smith"] = length hs.
Proof.
  refine (proj1 (proj2 emitted_rows_have_effective_header_count)
            200 two_table_page _ _ _ _ _).
  - vm_compute. reflexivity.
  - left.
Defined.

(** C3 as it is stated fails: on [two_table_page] the row that GTO (and GO,
    with its two appended cells) emits comes from the second table, which has
    three headers, and has the two cells that the first table has headers. *)
Lemma own_table_count_fails :
  extract_basic_info_from_GTO (ok two_table_page)
  = Return ([["NIRSpec/MOS"; "Smith"]], Some ["Instrument/Mode"; "PI"]) ∧
  ¬ own_table_count (λ page, extract_basic_info_from_GTO (ok page)) GTO_emitted_by 0 ∧
  ¬ own_table_count (λ page, extract_basic_info_from_GO (ok page) "Cycle 1")
      (λ hs, GO_emitted_by hs "Stars" "Cycle 1") 2.
Proof.
  split; [by vm_compute|].
  split; intros H.
  - specialize (H two_table_page [["NIRSpec/MOS"; "Smith"]]
                  ["Instrument/Mode"; "PI"]
                  [header_row ["Instrument/Mode"; "PI"; "ID"];
                   data_row ["NIRSpec/MOS"; "Smith"]]
                  [["NIRSpec/MOS"; "Smith"]] ["NIRSpec/MOS"; "Smith"]).
    vm_compute in H. discriminate H; [done|by right; left|done|by left].
  - specialize (H two_table_page [["NIRSpec/MOS"; "Smith"; "Stars"; "Cycle 1"]]
                  ["Instrument/Mode"; "PI"]
                  [header_row ["Instrument/Mode"; "PI"; "ID"];
                   data_row ["NIRSpec/MOS"; "Smith"]]
                  [["NIRSpec/MOS"; "Smith"; "Stars"; "Cycle 1"]]
                  ["NIRSpec/MOS"; "Smith"; "Stars"; "Cycle 1"]).
    vm_compute in H. discriminate H; [done|by right; left|done|by left].
Qed.

(** ** The "AR" marker of [extract_basic_info_from_GTO] *)

(** On a row as long as the headers [GTO.row_data] does not raise, and its
    result is determined by the "AR?" cell. *)
Lemma GTO_row_data_eq hs cols :
  length cols = length hs →
  GTO.row_data hs cols
  = Return match Py.find_index "AR?" hs with
           | Some i =>
               match cols !! i with
               | Some col =>
                   if find_img col then <[i := "AR"]> (get_text <$> cols)
                   else get_text <$> cols
               | None => get_text <$> cols
               end
           | None => get_text <$> cols
           end.
Proof.
  intros Hlen. unfold GTO.row_data.
  destruct (Py.find_index "AR?" hs) as [i|] eqn:Hi.
  - destruct (find_index_Some _ _ _ Hi) as [Hhs Hlt].
    assert (Py.mem "AR?" hs = true) as ->.
    { apply mem_true. by eapply list_elem_of_lookup_2. }
    unfold Py.index. rewrite Hi. simpl.
    destruct (lookup_lt_is_Some_2 cols i) as [col Hcol]; [lia|].
    unfold Py.getitem. rewrite Hcol. simpl.
    destruct (find_img col); [|done].
    unfold Py.setitem. rewrite bool_decide_eq_true_2; [done|].
    rewrite length_fmap. lia.
  - apply find_index_None, mem_false in Hi. by rewrite Hi.
Qed.

(** C9: an emitted row of GTO comes from a data row as long as the headers;
    where the headers have a column "AR?" and the cell of the row in that
    column holds an image, the row has "AR" at that position and the cell
    texts elsewhere; where the cell holds no image, or there is no column
    "AR?", the row is the stripped cell texts. *)
Theorem GTO_AR_marker code page data headers row :
  extract_basic_info_from_GTO (Return (Response code page)) = Return (data, headers) →
  row ∈ data →
  ∃ hs r,
    headers = Some hs ∧ data_row_of (tables page) r ∧
    length (td r) = length hs ∧
    (∀ i col, Py.find_index "AR?" hs = Some i → td r !! i = Some col →
              find_img col = true →
              row !! i = Some "AR" ∧ row = <[i := "AR"]> (get_text <$> td r)) ∧
    (∀ i col, Py.find_index "AR?" hs = Some i → td r !! i = Some col →
              find_img col = false →
              row = get_text <$> td r) ∧
    ("AR?" ∉ hs → row = get_text <$> td r).
Proof.
  intros (code' & page' & [= <- <-] & _ & H)%GTO_fetched Hrow.
  apply GTO_parse_sound in H as [_ H].
  destruct (H row Hrow) as (hs & r & -> & Hr & Hlen & Hrd & _).
  exists hs, r. split_and!; [done|done|done| | |].
  - intros i col Hi Hcol Himg.
    rewrite (GTO_row_data_eq _ _ Hlen), Hi, Hcol, Himg in Hrd.
    injection Hrd as <-. split; [|done].
    apply list_lookup_insert_eq. rewrite length_fmap.
    by eapply lookup_lt_Some.
  - intros i col Hi Hcol Himg.
    rewrite (GTO_row_data_eq _ _ Hlen), Hi, Hcol, Himg in Hrd.
    by injection Hrd as <-.
  - intros Hi%find_index_None.
    rewrite (GTO_row_data_eq _ _ Hlen), Hi in Hrd. by injection Hrd as <-.
Qed.

Lemma GTO_AR_marker_witness :
  ∃ hs r,
    Some ["AR?"; "Instrument/ Mode"; "ID"] = Some hs ∧
    data_row_of (tables GTO_page) r ∧
    length (td r) = length hs ∧
    (∀ i col, Py.find_index "AR?" hs = Some i → td r !! i = Some col →
              find_img col = true →
              ["AR"; "NIRSpec/MOS"; "1210"] !! i = Some "AR" ∧
              ["AR"; "NIRSpec/MOS"; "1210"] = <[i := "AR"]> (get_text <$> td r)) ∧
    (∀ i col, Py.find_index "AR?" hs = Some i → td r !! i = Some col →
              find_img col = false →
              ["AR"; "NIRSpec/MOS"; "1210"] = get_text <$> td r) ∧
    ("AR?" ∉ hs → ["AR"; "NIRSpec/MOS"; "1210"] = get_text <$> td r).
Proof.
  refine (GTO_AR_marker 200 GTO_page _ _ _ _ _).
  - vm_compute. reflexivity.
  - left.
Defined.

(** ** A page without the instrument column *)

Lemma for_loop_guard {S A} (p : A → bool) (e : exn) (body : S → A → result S) :
  (∀ s a, body s a = if p a then Raise e else Return s) →
  ∀ l s, for_loop body s l = if existsb p l then Raise e else Return s.
Proof.
  intros Hb. induction l as [|a l IH]; intros s; simpl; [done|].
  rewrite Hb. destruct (p a); simpl; [done|apply IH].
Qed.

Lemma for_loop_skip {S A} (body : S → A → result S) :
  (∀ s a, body s a = Return s) → ∀ l s, for_loop body s l = Return s.
Proof.
  intros Hb. induction l as [|a l IH]; intros s; simpl; [done|].
  rewrite Hb. simpl. apply IH.
Qed.

Lemma only_raises_nothing {A} (r : result A) :
  only_raises (λ _, False) r → ∃ a, r = Return a.
Proof. destruct r as [a|e]; [by exists a|done]. Qed.

Lemma GO_row_body_no_column hs topic cycle d r :
  "Instrument/Mode" ∉ hs → "Instrument/ Mode" ∉ hs →
  GO.row_body hs topic cycle d r
  = if full_row hs r then Raise ValueError else Return d.
Proof.
  intros H1 H2. unfold GO.row_body, full_row.
  destruct (_ =? _)%nat; simpl; [|done].
  unfold GO.instrument_mode.
  apply mem_false in H2. rewrite H2. simpl. by rewrite index_missing.
Qed.

Lemma GTO_row_body_no_column hs d r :
  "Instrument/Mode" ∉ hs → "Instrument/ Mode" ∉ hs →
  GTO.row_body hs d r = Return d.
Proof.
  intros H1%mem_false H2%mem_false. unfold GTO.row_body.
  destruct (negb _); [done|]. unfold GTO.instrument_mode. by rewrite H1, H2.
Qed.

Lemma DDT_row_body_no_column hs d r :
  "Instruments" ∉ hs → DDT.row_body hs d r = Return d.
Proof.
  intros H1%mem_false. unfold DDT.row_body.
  destruct (negb _); [done|]. unfold DDT.instrument_mode. by rewrite H1.
Qed.

(** GTO and DDT raise nothing, whatever the page. *)
Lemma GTO_row_body_total hs d r : only_raises (λ _, False) (GTO.row_body hs d r).
Proof.
  unfold GTO.row_body. destruct (negb _) eqn:Hlen; [done|].
  apply length_eqb_false in Hlen.
  assert (∀ mode, only_raises (λ _, False)
            (if Py.contains "NIRSpec/MOS" mode
             then rd ← GTO.row_data hs (td r); mret (d ++ [rd])
             else mret d)) as Hk.
  { intros mode. destruct (Py.contains _ _); [|done].
    by rewrite (GTO_row_data_eq _ _ Hlen). }
  unfold GTO.instrument_mode.
  destruct (Py.mem "Instrument/Mode" hs) eqn:H1.
  - apply mem_true in H1.
    destruct (column_cell _ hs (td r) Hlen H1) as (i & col & -> & Hc).
    simpl. rewrite Hc. simpl. apply Hk.
  - destruct (Py.mem "Instrument/ Mode" hs) eqn:H2; [|done].
    apply mem_true in H2.
    destruct (column_cell _ hs (td r) Hlen H2) as (i & col & -> & Hc).
    simpl. rewrite Hc. simpl. apply Hk.
Qed.

Lemma DDT_row_body_total hs d r : only_raises (λ _, False) (DDT.row_body hs d r).
Proof.
  unfold DDT.row_body. destruct (negb _) eqn:Hlen; [done|].
  apply length_eqb_false in Hlen. unfold DDT.instrument_mode.
  destruct (Py.mem "Instruments" hs) eqn:H1; [|done].
  apply mem_true in H1.
  destruct (column_cell _ hs (td r) Hlen H1) as (i & col & -> & Hc).
  simpl. rewrite Hc. simpl. by destruct (Py.contains _ _).
Qed.

Lemma table_loop_total {T} (rows_of : T → table) row_body items :
  (∀ hs item d r, only_raises (λ _, False) (row_body hs item d r)) →
  ∃ data, for_loop (table_step rows_of row_body) ([], None) items
          = Return (data, effective_headers (rows_of <$> items)).
Proof.
  intros Hb. rewrite table_loop_nested.
  destruct (effective_headers _) as [hs|]; [|by exists []].
  destruct (only_raises_nothing
              (for_loop (rows_step rows_of (row_body hs)) [] items)) as [d Hd].
  { apply only_raises_for_loop. intros d item. apply only_raises_for_loop.
    intros d' r. apply Hb. }
  exists d. by rewrite Hd.
Qed.

Lemma GTO_never_raises code page :
  good_status code →
  ∃ data, extract_basic_info_from_GTO (Return (Response code page))
          = Return (data, effective_headers (tables page)).
Proof.
  intros Hg. unfold extract_basic_info_from_GTO.
  rewrite (fetched_good code page GTO.parse Hg), GTO_parse_step.
  destruct (table_loop_total id (λ hs _, GTO.row_body hs) (tables page)) as [d Hd].
  { intros. apply GTO_row_body_total. }
  exists d. by rewrite Hd, list_fmap_id.
Qed.

Lemma DDT_never_raises code page :
  good_status code →
  ∃ data, extract_basic_info_from_DDT (Return (Response code page))
          = Return (data, effective_headers (tables page)).
Proof.
  intros Hg. unfold extract_basic_info_from_DDT.
  rewrite (fetched_good code page DDT.parse Hg), DDT_parse_step.
  destruct (table_loop_total id (λ hs _, DDT.row_body hs) (tables page)) as [d Hd].
  { intros. apply DDT_row_body_total. }
  exists d. by rewrite Hd, list_fmap_id.
Qed.

(** C10, as the code has it: under effective headers with neither
    "Instrument/Mode" nor "Instrument/ Mode", GO raises [ValueError] (the
    failed [headers.index]) as soon as the page has a data row, in a table
    paired with a topic, with as many cells as there are headers, and GTO
    skips every row and returns no data with the headers.  DDT reads the
    column "Instruments", not the two aliases: it skips every row and returns
    no data with the headers when "Instruments" is not a header.  GTO and
    DDT raise on no page at all. *)
Theorem missing_instrument_column :
  (∀ code page cycle hs item r,
      good_status code →
      effective_headers (paired_tables page) = Some hs →
      "Instrument/Mode" ∉ hs → "Instrument/ Mode" ∉ hs →
      item ∈ zip (topics page) (tables page) →
      r ∈ drop 1 item.2 →
      length (td r) = length hs →
      extract_basic_info_from_GO (Return (Response code page)) cycle
      = Raise ValueError) ∧
  (∀ code page hs,
      good_status code →
      effective_headers (tables page) = Some hs →
      "Instrument/Mode" ∉ hs → "Instrument/ Mode" ∉ hs →
      extract_basic_info_from_GTO (Return (Response code page))
      = Return ([], Some hs)) ∧
  (∀ code page hs,
      good_status code →
      effective_headers (tables page) = Some hs →
      "Instruments" ∉ hs →
      extract_basic_info_from_DDT (Return (Response code page))
      = Return ([], Some hs)) ∧
  (∀ code page,
      good_status code →
      (∃ data, extract_basic_info_from_GTO (Return (Response code page))
               = Return (data, effective_headers (tables page))) ∧
      (∃ data, extract_basic_info_from_DDT (Return (Response code page))
               = Return (data, effective_headers (tables page)))).
Proof.
  split_and!; [| | |intros code page Hg; split;
                     [by apply GTO_never_raises|by apply DDT_never_raises]].
  - intros code page cycle hs item r Hg He H1 H2 Hitem Hr Hlen.
    unfold extract_basic_info_from_GO.
    rewrite (fetched_good code page (λ page, GO.parse page cycle) Hg).
    rewrite GO_parse_step, table_loop_nested. fold (paired_tables page).
    rewrite He.
    rewrite (for_loop_guard (λ item, existsb (full_row hs) (drop 1 item.2)) ValueError).
    + assert (existsb (λ item, existsb (full_row hs) (drop 1 item.2))
                (zip (topics page) (tables page)) = true) as ->; [|done].
      apply existsb_exists. exists item. split; [by apply list_elem_of_In|].
      apply existsb_exists. exists r. split; [by apply list_elem_of_In|].
      by apply Nat.eqb_eq.
    + intros d it. unfold rows_step. apply for_loop_guard.
      intros d' r'. by apply GO_row_body_no_column.
  - intros code page hs Hg He H1 H2. unfold extract_basic_info_from_GTO.
    rewrite (fetched_good code page GTO.parse Hg), GTO_parse_step.
    rewrite table_loop_nested, list_fmap_id, He.
    rewrite for_loop_skip; [done|]. intros d t. unfold rows_step.
    apply for_loop_skip. intros d' r. by apply GTO_row_body_no_column.
  - intros code page hs Hg He H1. unfold extract_basic_info_from_DDT.
    rewrite (fetched_good code page DDT.parse Hg), DDT_parse_step.
    rewrite table_loop_nested, list_fmap_id, He.
    rewrite for_loop_skip; [done|]. intros d t. unfold rows_step.
    apply for_loop_skip. intros d' r. by apply DDT_row_body_no_column.
Qed.

Lemma missing_instrument_column_witness :
  extract_basic_info_from_GO (ok no_column_page) "Cycle 1" = Raise ValueError ∧
  extract_basic_info_from_GTO (ok no_column_page) = Return ([], Some ["PI"; "ID"]) ∧
  extract_basic_info_from_DDT (ok no_column_page) = Return ([], Some ["PI"; "ID"]).
Proof.
  destruct missing_instrument_column as (HGO & HGTO & HDDT & _).
  assert (good_status 200) as Hg by (unfold good_status; lia).
  assert ("Instrument/Mode" ∉ ["PI"; "ID"]) as H1.
  { apply (bool_decide_unpack _). vm_compute. exact I. }
  assert ("Instrument/ Mode" ∉ ["PI"; "ID"]) as H2.
  { apply (bool_decide_unpack _). vm_compute. exact I. }
  assert ("Instruments" ∉ ["PI"; "ID"]) as H3.
  { apply (bool_decide_unpack _). vm_compute. exact I. }
  split_and!.
  - apply (HGO 200 no_column_page "Cycle 1" ["PI"; "ID"]
             (text "Galaxies", [header_row ["PI"; "ID"]; data_row ["Smith"; "GO-001"]])
             (data_row ["Smith"; "GO-001"]) Hg); try done; by left.
  - by apply (HGTO 200 no_column_page ["PI"; "ID"] Hg).
  - by apply (HDDT 200 no_column_page ["PI"; "ID"] Hg).
Defined.

(** C10 as it is stated fails for DDT: the headers of [DDT_page] have neither
    alias, its first data row has as many cells as there are headers, and
    DDT does not skip the row: it finds "NIRSpec" under "Instruments" and
    emits it. *)
Lemma DDT_keeps_rows_without_alias :
  ("Instrument/Mode" ∉ ["ID"; "Instruments"]) ∧
  ("Instrument/ Mode" ∉ ["ID"; "Instruments"]) ∧
  extract_basic_info_from_DDT (ok DDT_page)
  = Return ([["2756"; "NIRSpec, NIRCam"]], Some ["ID"; "Instruments"]) ∧
  ¬ (∀ code page hs,
        good_status code →
        effective_headers (tables page) = Some hs →
        "Instrument/Mode" ∉ hs → "Instrument/ Mode" ∉ hs →
        extract_basic_info_from_DDT (Return (Response code page))
        = Return ([], Some hs)).
Proof.
  assert ("Instrument/Mode" ∉ ["ID"; "Instruments"]) as H1.
  { apply (bool_decide_unpack _). vm_compute. exact I. }
  assert ("Instrument/ Mode" ∉ ["ID"; "Instruments"]) as H2.
  { apply (bool_decide_unpack _). vm_compute. exact I. }
  split_and!; [done|done|by vm_compute|].
  intros H. specialize (H 200 DDT_page ["ID"; "Instruments"]).
  assert (good_status 200) as Hg by (unfold good_status; lia).
  specialize (H Hg eq_refl H1 H2). vm_compute in H. discriminate H.
Qed.

(** ** The two spellings of the instrument column *)

Lemma get_text_rename_cell e : get_text (rename_cell e) = rename_header (get_text e).
Proof. unfold rename_cell, rename_header. by case_bool_decide. Qed.

Lemma header_texts_rename t :
  header_texts (rename_table t) = rename_header <$> header_texts t.
Proof.
  destruct t as [|row0 rows]; [done|]. simpl.
  rewrite <- !list_fmap_compose. apply list_fmap_ext.
  intros i e _. apply get_text_rename_cell.
Qed.

Lemma effective_headers_rename ts :
  effective_headers (rename_table <$> ts)
  = option_map (map rename_header) (effective_headers ts).
Proof.
  induction ts as [|t ts IH]; [done|].
  rewrite fmap_cons, !effective_headers_cons, header_texts_rename.
  by destruct t.
Qed.

Lemma drop_rename_table t : drop 1 (rename_table t) = drop 1 t.
Proof. by destruct t. Qed.

Lemma zip_rename (tps : list element) (ts : list table) :
  zip tps (rename_table <$> ts) = prod_map id rename_table <$> zip tps ts.
Proof.
  revert ts. induction tps as [|tp tps IH]; intros [|t ts]; simpl; [done..|].
  by rewrite IH.
Qed.

Lemma find_index_rename_alias hs :
  "Instrument/ Mode" ∉ hs →
  Py.find_index "Instrument/ Mode" (rename_header <$> hs)
  = Py.find_index "Instrument/Mode" hs.
Proof.
  induction hs as [|y hs IH]; [done|].
  intros [Hy Hhs]%not_elem_of_cons.
  rewrite fmap_cons. cbn [Py.find_index]. rewrite IH by done.
  unfold rename_header. destruct (decide (y = "Instrument/Mode")) as [->|Hne].
  - done.
  - rewrite (bool_decide_eq_false_2 (y = _)) by done.
    rewrite (bool_decide_eq_false_2 (_ = y)) by done.
    by rewrite (bool_decide_eq_false_2 ("Instrument/Mode" = y)).
Qed.

Lemma find_index_rename_other x hs :
  x ≠ "Instrument/Mode" → x ≠ "Instrument/ Mode" →
  Py.find_index x (rename_header <$> hs) = Py.find_index x hs.
Proof.
  intros H1 H2. induction hs as [|y hs IH]; [done|].
  rewrite fmap_cons. cbn [Py.find_index]. rewrite IH. unfold rename_header.
  by repeat case_bool_decide; simplify_eq.
Qed.

Lemma rename_absent (hs : list string) :
  "Instrument/Mode" ∉ hs → rename_header <$> hs = hs.
Proof.
  induction hs as [|y hs IH]; [done|].
  intros [Hy Hhs]%not_elem_of_cons. rewrite fmap_cons, IH by done.
  unfold rename_header. by rewrite bool_decide_eq_false_2.
Qed.

Lemma rename_removes (hs : list string) : "Instrument/Mode" ∉ rename_header <$> hs.
Proof.
  intros (y & Hy & _)%list_elem_of_fmap. unfold rename_header in Hy.
  by case_bool_decide.
Qed.

Lemma mem_find_index x l :
  Py.mem x l = match Py.find_index x l with Some _ => true | None => false end.
Proof.
  destruct (Py.find_index x l) as [i|] eqn:H.
  - apply mem_true. apply find_index_Some in H as [H _].
    by eapply list_elem_of_lookup_2.
  - by apply mem_false, find_index_None.
Qed.

Lemma GO_instrument_mode_rename hs cols :
  "Instrument/ Mode" ∉ hs →
  GO.instrument_mode (rename_header <$> hs) cols = GO.instrument_mode hs cols.
Proof.
  intros H2. unfold GO.instrument_mode, Py.index.
  rewrite (proj2 (mem_false _ hs) H2), mem_find_index, !find_index_rename_alias by done.
  destruct (Py.find_index "Instrument/Mode" hs) as [i|] eqn:H1; simpl; [done|].
  apply find_index_None in H1. by rewrite rename_absent, (proj2 (find_index_None _ _) H1).
Qed.

Lemma GTO_instrument_mode_rename hs cols :
  "Instrument/ Mode" ∉ hs →
  GTO.instrument_mode (rename_header <$> hs) cols = GTO.instrument_mode hs cols.
Proof.
  intros H2. unfold GTO.instrument_mode, Py.index.
  rewrite (proj2 (mem_false _ _) (rename_removes hs)).
  rewrite (proj2 (mem_false _ hs) H2).
  rewrite !mem_find_index, !find_index_rename_alias by done.
  by destruct (Py.find_index "Instrument/Mode" hs).
Qed.

Lemma GTO_row_data_rename hs cols :
  GTO.row_data (rename_header <$> hs) cols = GTO.row_data hs cols.
Proof.
  unfold GTO.row_data, Py.index.
  by rewrite !mem_find_index, !find_index_rename_other.
Qed.

Lemma GO_row_body_rename hs topic cycle d r :
  "Instrument/ Mode" ∉ hs →
  GO.row_body (rename_header <$> hs) topic cycle d r = GO.row_body hs topic cycle d r.
Proof.
  intros H2. unfold GO.row_body.
  by rewrite length_fmap, GO_instrument_mode_rename.
Qed.

Lemma GTO_row_body_rename hs d r :
  "Instrument/ Mode" ∉ hs →
  GTO.row_body (rename_header <$> hs) d r = GTO.row_body hs d r.
Proof.
  intros H2. unfold GTO.row_body.
  by rewrite length_fmap, GTO_instrument_mode_rename, GTO_row_data_rename.
Qed.

Lemma GO_parse_rename page cycle :
  (∀ hs, effective_headers (paired_tables page) = Some hs → "Instrument/ Mode" ∉ hs) →
  GO.parse (rename_page page) cycle = rename_result (GO.parse page cycle).
Proof.
  intros Hhs. rewrite !GO_parse_step, !table_loop_nested.
  fold (paired_tables page). simpl topics. simpl tables.
  rewrite zip_rename, <- list_fmap_compose.
  change (snd ∘ prod_map id rename_table)
    with (rename_table ∘ (snd : element * table → table)).
  rewrite list_fmap_compose, effective_headers_rename.
  fold (paired_tables page).
  destruct (effective_headers (paired_tables page)) as [hs|]; [|done].
  specialize (Hhs hs eq_refl). simpl option_map. cbv match.
  rewrite for_loop_fmap.
  rewrite (for_loop_ext _ (rows_step snd (GO_row_body cycle hs))).
  - by destruct (for_loop _ _ _).
  - intros d [topic t] _. unfold rows_step. simpl. rewrite drop_rename_table.
    apply for_loop_ext. intros d' r _. by apply GO_row_body_rename.
Qed.

Lemma GTO_parse_rename page :
  (∀ hs, effective_headers (tables page) = Some hs → "Instrument/ Mode" ∉ hs) →
  GTO.parse (rename_page page) = rename_result (GTO.parse page).
Proof.
  intros Hhs. rewrite !GTO_parse_step, !table_loop_nested, !list_fmap_id.
  simpl tables. rewrite effective_headers_rename.
  destruct (effective_headers (tables page)) as [hs|]; [|done].
  specialize (Hhs hs eq_refl). simpl option_map. cbv match.
  rewrite for_loop_fmap.
  rewrite (for_loop_ext _ (rows_step id (λ _, GTO.row_body hs))).
  - by destruct (for_loop _ _ _).
  - intros d t _. unfold rows_step. simpl. rewrite drop_rename_table.
    apply for_loop_ext. intros d' r _. by apply GTO_row_body_rename.
Qed.

(** C4: let a page name its instrument column "Instrument/Mode" (its
    effective headers do not use "Instrument/ Mode"), and let the other page
    be the same page with that header spelt "Instrument/ Mode".  GO and GTO
    give the same outcome on both: the same data, and the same headers up to
    the spelling. *)
Theorem header_alias_equivalence :
  (∀ code page cycle,
      (∀ hs, effective_headers (paired_tables page) = Some hs →
             "Instrument/ Mode" ∉ hs) →
      extract_basic_info_from_GO (Return (Response code (rename_page page))) cycle
      = rename_result
          (extract_basic_info_from_GO (Return (Response code page)) cycle)) ∧
  (∀ code page,
      (∀ hs, effective_headers (tables page) = Some hs →
             "Instrument/ Mode" ∉ hs) →
      extract_basic_info_from_GTO (Return (Response code (rename_page page)))
      = rename_result
          (extract_basic_info_from_GTO (Return (Response code page)))).
Proof.
  split.
  - intros code page cycle Hhs. unfold extract_basic_info_from_GO. simpl.
    unfold raise_for_status. simpl. destruct (_ && _); simpl; [done|].
    by apply GO_parse_rename.
  - intros code page Hhs. unfold extract_basic_info_from_GTO. simpl.
    unfold raise_for_status. simpl. destruct (_ && _); simpl; [done|].
    by apply GTO_parse_rename.
Qed.

Lemma header_alias_equivalence_witness :
  extract_basic_info_from_GO (ok (rename_page GO_page)) "Cycle 1"
  = Return ([["NIRSpec/MOS Prism"; "Smith"; "GO-001"; "Galaxies"; "Cycle 1"]],
            Some ["Instrument/ Mode"; "PI"; "ID"]).
Proof.
  refine (eq_trans (proj1 header_alias_equivalence 200 GO_page "Cycle 1" _) _).
  - intros hs [= <-]. apply (bool_decide_unpack _). vm_compute. exact I.
  - vm_compute. reflexivity.
Defined.

(** ** The rows of each table *)

(** The row loops only append: run from [d], a loop gives [d] followed by
    what it gives run from the empty list. *)
Lemma for_loop_from_nil {A B} (body : list B → A → result (list B)) :
  (∀ d a, body d a = (new ← body [] a; mret (d ++ new))) →
  ∀ l d, for_loop body d l = (new ← for_loop body [] l; mret (d ++ new)).
Proof.
  intros Hb. induction l as [|a l IH]; intros d; simpl.
  - by rewrite app_nil_r.
  - rewrite (Hb d a). destruct (body [] a) as [n1|e]; simpl; [|done].
    rewrite (IH (d ++ n1)), (IH n1).
    destruct (for_loop body [] l) as [n2|e]; simpl; [|done].
    by rewrite app_assoc.
Qed.

Lemma GO_row_body_from_nil hs topic cycle d r :
  GO.row_body hs topic cycle d r
  = (new ← GO.row_body hs topic cycle [] r; mret (d ++ new)).
Proof.
  unfold GO.row_body. destruct (negb _); simpl; [by rewrite app_nil_r|].
  destruct (GO.instrument_mode hs (td r)) as [mode|e]; simpl; [|done].
  destruct (Py.contains _ mode); simpl; [done|by rewrite app_nil_r].
Qed.

Lemma GTO_row_body_from_nil hs d r :
  GTO.row_body hs d r = (new ← GTO.row_body hs [] r; mret (d ++ new)).
Proof.
  unfold GTO.row_body. destruct (negb _); simpl; [by rewrite app_nil_r|].
  destruct (GTO.instrument_mode hs (td r)) as [[mode|]|e]; simpl;
    [|by rewrite app_nil_r|done].
  destruct (Py.contains _ mode); simpl; [|by rewrite app_nil_r].
  by destruct (GTO.row_data hs (td r)).
Qed.

Lemma DDT_row_body_from_nil hs d r :
  DDT.row_body hs d r = (new ← DDT.row_body hs [] r; mret (d ++ new)).
Proof.
  unfold DDT.row_body. destruct (negb _); simpl; [by rewrite app_nil_r|].
  destruct (DDT.instrument_mode hs (td r)) as [[mode|]|e]; simpl;
    [|by rewrite app_nil_r|done].
  destruct (Py.contains _ mode); simpl; [done|by rewrite app_nil_r].
Qed.

(** The data of nested append-only loops are the rows of each item, one
    item after the other. *)
Lemma nested_loop_concat {T} (rows_of : T → table)
    (row_body : T → list (list string) → tr → result (list (list string))) :
  (∀ item d r, row_body item d r = (new ← row_body item [] r; mret (d ++ new))) →
  ∀ items d data,
    for_loop (rows_step rows_of row_body) d items = Return data →
    ∃ per_item,
      Forall2 (λ item rows, rows_step rows_of row_body [] item = Return rows)
              items per_item ∧
      data = d ++ concat per_item.
Proof.
  intros Hb. induction items as [|item items IH]; intros d data; simpl.
  - intros [= <-]. exists []. split; [constructor|by rewrite app_nil_r].
  - intros H. apply bind_Return_inv in H as (d1 & H1 & H2).
    unfold rows_step in H1 at 1.
    rewrite (for_loop_from_nil (row_body item) (Hb item)) in H1.
    apply bind_Return_inv in H1 as (rows & Hrows & [= <-]).
    apply IH in H2 as (per & Hper & ->).
    exists (rows :: per). split; [by constructor|].
    simpl. by rewrite app_assoc.
Qed.

(** The data GTO returns are the rows emitted by each table of the page, in
    the order of the tables. *)
Lemma GTO_data_by_table page data hs :
  GTO.parse page = Return (data, Some hs) →
  ∃ per_table,
    Forall2 (λ t rows, GTO_emitted_by hs t = Return rows) (tables page) per_table ∧
    data = concat per_table.
Proof.
  rewrite GTO_parse_step, table_loop_nested.
  destruct (effective_headers _) as [hs'|]; [|done].
  intros H. apply bind_Return_inv in H as (d & H & [= <- <-]).
  apply nested_loop_concat in H as (per & Hper & ->);
    [|intros; apply GTO_row_body_from_nil].
  by exists per.
Qed.

Lemma DDT_data_by_table page data hs :
  DDT.parse page = Return (data, Some hs) →
  ∃ per_table,
    Forall2 (λ t rows, DDT_emitted_by hs t = Return rows) (tables page) per_table ∧
    data = concat per_table.
Proof.
  rewrite DDT_parse_step, table_loop_nested.
  destruct (effective_headers _) as [hs'|]; [|done].
  intros H. apply bind_Return_inv in H as (d & H & [= <- <-]).
  apply nested_loop_concat in H as (per & Hper & ->);
    [|intros; apply DDT_row_body_from_nil].
  by exists per.
Qed.

Lemma GO_data_by_table page cycle data hs :
  GO.parse page cycle = Return (data, Some hs) →
  ∃ per_table,
    Forall2 (λ item rows, GO_emitted_by hs (get_text item.1) cycle item.2 = Return rows)
            (zip (topics page) (tables page)) per_table ∧
    data = concat per_table.
Proof.
  rewrite GO_parse_step, table_loop_nested.
  destruct (effective_headers _) as [hs'|]; [|done].
  intros H. apply bind_Return_inv in H as (d & H & [= <- <-]).
  apply nested_loop_concat in H as (per & Hper & ->);
    [|intros; apply GO_row_body_from_nil].
  by exists per.
Qed.

(** ** Examples *)

(** The example of the specification, for any topic and cycle label. *)
Example GO_one_row topic cycle :
  extract_basic_info_from_GO
    (ok (Soup [topic]
              [[header_row ["Instrument/Mode"; "PI"; "ID"];
                data_row ["NIRSpec/MOS Prism"; "Smith"; "GO-001"]]]))
    cycle
  = Return ([["NIRSpec/MOS Prism"; "Smith"; "GO-001"; get_text topic; cycle]],
            Some ["Instrument/Mode"; "PI"; "ID"]).
Proof. reflexivity. Qed.

Example normalize_example :
  GO.normalize "NIRSpec/
 MOS Prism" = "NIRSpec/MOSPrism".
Proof. reflexivity. Qed.

Example strip_example : Py.strip "  NIRSpec/MOS 	" = "NIRSpec/MOS".
Proof. reflexivity. Qed.

Example GTO_example :
  extract_basic_info_from_GTO (ok GTO_page)
  = Return ([["AR"; "NIRSpec/MOS"; "1210"]; [""; "NIRSpec/MOS"; "1211"]],
            Some ["AR?"; "Instrument/ Mode"; "ID"]).
Proof. reflexivity. Qed.

Example bad_status_example :
  extract_basic_info_from_DDT (Return (Response 404 DDT_page)) = Raise (HTTPError 404).
Proof. reflexivity. Qed.

Example status_no_rows_example :
  get_observation_status (λ _, ok (page_of [[]])) 3 = Some (Raise IndexError, 1%nat).
Proof. reflexivity. Qed.

(** * Further properties *)

(** ** Loops that filter *)

Lemma for_loop_filter {A B} (p : A → bool) (f : A → B)
    (body : list B → A → result (list B)) :
  (∀ d a, body d a = Return (if p a then d ++ [f a] else d)) →
  ∀ l d, for_loop body d l = Return (d ++ (f <$> filter (λ a, p a) l)).
Proof.
  intros Hb. induction l as [|a l IH]; intros d; simpl.
  - by rewrite app_nil_r.
  - rewrite Hb. simpl. rewrite IH, filter_cons.
    destruct (p a) eqn:Hp.
    + rewrite decide_True by exact I. by rewrite fmap_cons, <- app_assoc.
    + by rewrite decide_False by exact id.
Qed.

Lemma nested_loop_filter {T} (rows_of : T → table)
    (row_body : T → list (list string) → tr → result (list (list string)))
    (p : T → tr → bool) (f : T → tr → list string) :
  (∀ item d r, row_body item d r = Return (if p item r then d ++ [f item r] else d)) →
  ∀ items d,
    for_loop (rows_step rows_of row_body) d items
    = Return (d ++ concat ((λ item, f item <$> filter (λ r, p item r)
                                                 (drop 1 (rows_of item))) <$> items)).
Proof.
  intros Hb. induction items as [|item items IH]; intros d.
  - simpl. by rewrite app_nil_r.
  - assert (rows_step rows_of row_body d item
            = Return (d ++ (f item <$> filter (λ r, p item r) (drop 1 (rows_of item)))))
      as Hstep.
    { unfold rows_step. apply (for_loop_filter (p item) (f item)), Hb. }
    cbn [for_loop]. rewrite Hstep. simpl. rewrite IH. by rewrite <- app_assoc.
Qed.

Lemma data_rows_filter {B} (P : tr → Prop) `{∀ r, Decision (P r)} (f : tr → B) ts :
  concat ((λ t : table, f <$> filter P (drop 1 t)) <$> ts)
  = f <$> filter P (data_rows ts).
Proof.
  unfold data_rows. induction ts as [|t ts IH]; [done|].
  rewrite !fmap_cons. cbn [concat]. by rewrite IH, filter_app, fmap_app.
Qed.

(** ** The row loops as tests *)

Lemma full_row_spec hs r : full_row hs r = true ↔ length (td r) = length hs.
Proof. apply Nat.eqb_eq. Qed.

(** On a full row a column of the headers is read without failure. *)
Lemma read_column x hs r (k : string → string) :
  full_row hs r = true → x ∈ hs →
  ∃ col, (i ← Py.index x hs; col ← Py.getitem (td r) i; mret (k (get_text col)))
         = Return (k (get_text col)) ∧
         ∀ sub, column_contains x sub k hs r = Py.contains sub (k (get_text col)).
Proof.
  intros Hlen%full_row_spec [i Hi]%find_index_is_Some.
  destruct (find_index_Some _ _ _ Hi) as [_ Hlt].
  destruct (lookup_lt_is_Some_2 (td r) i) as [col Hcol]; [lia|].
  exists col. split.
  - rewrite (proj2 (index_Return _ _ _) Hi). simpl.
    by rewrite (proj2 (getitem_Return _ _ _) Hcol).
  - intros sub. unfold column_contains. by rewrite Hi, Hcol.
Qed.

Lemma column_contains_missing x sub k hs r :
  x ∉ hs → column_contains x sub k hs r = false.
Proof. intros H%find_index_None. unfold column_contains. by rewrite H. Qed.

Lemma DDT_row_body_eq hs d r :
  DDT.row_body hs d r = Return (if DDT_selects hs r then d ++ [cell_texts r] else d).
Proof.
  unfold DDT.row_body, DDT_selects. fold (full_row hs r).
  destruct (full_row hs r) eqn:Hf; simpl; [|done].
  unfold DDT.instrument_mode. destruct (Py.mem "Instruments" hs) eqn:Hm.
  - apply mem_true in Hm.
    destruct (read_column _ hs r id Hf Hm) as (col & Hread & Hcc).
    rewrite Hcc. unfold id in *.
    apply bind_Return_inv in Hread as (i & Hi & Hread).
    apply bind_Return_inv in Hread as (col' & Hc & [= Heq]).
    rewrite Hi. simpl. rewrite Hc. simpl. rewrite Heq.
    by destruct (Py.contains _ _).
  - apply mem_false in Hm. simpl. by rewrite column_contains_missing.
Qed.

Lemma GTO_row_body_eq hs d r :
  GTO.row_body hs d r = Return (if GTO_selects hs r then d ++ [GTO_marked hs r] else d).
Proof.
  unfold GTO.row_body, GTO_selects. fold (full_row hs r).
  destruct (full_row hs r) eqn:Hf; simpl; [|done].
  assert (∀ mode,
    (if Py.contains "NIRSpec/MOS" mode
     then rd ← GTO.row_data hs (td r); mret (d ++ [rd])
     else mret d)
    = Return (if Py.contains "NIRSpec/MOS" mode then d ++ [GTO_marked hs r] else d))
    as Hk.
  { intros mode. destruct (Py.contains _ _); [|done].
    by rewrite (GTO_row_data_eq hs (td r)) by by apply full_row_spec. }
  unfold GTO.instrument_mode, GTO_column.
  destruct (Py.mem "Instrument/Mode" hs) eqn:H1.
  - apply mem_true in H1.
    destruct (read_column _ hs r id Hf H1) as (col & Hread & Hcc).
    rewrite Hcc. unfold id in *.
    apply bind_Return_inv in Hread as (i & Hi & Hread).
    apply bind_Return_inv in Hread as (col' & Hc & [= Heq]).
    rewrite Hi. simpl. rewrite Hc. simpl. rewrite Heq. apply Hk.
  - destruct (Py.mem "Instrument/ Mode" hs) eqn:H2.
    + apply mem_true in H2.
      destruct (read_column _ hs r id Hf H2) as (col & Hread & Hcc).
      rewrite Hcc. unfold id in *.
      apply bind_Return_inv in Hread as (i & Hi & Hread).
      apply bind_Return_inv in Hread as (col' & Hc & [= Heq]).
      rewrite Hi. simpl. rewrite Hc. simpl. rewrite Heq. apply Hk.
    + apply mem_false in H2. simpl. by rewrite column_contains_missing.
Qed.

Lemma GO_column_present hs :
  "Instrument/Mode" ∈ hs ∨ "Instrument/ Mode" ∈ hs → GO_column hs ∈ hs.
Proof.
  intros H. unfold GO_column. destruct (Py.mem "Instrument/ Mode" hs) eqn:H2.
  - by apply mem_true.
  - apply mem_false in H2. by destruct H.
Qed.

Lemma GO_row_body_eq hs topic cycle d r :
  "Instrument/Mode" ∈ hs ∨ "Instrument/ Mode" ∈ hs →
  GO.row_body hs topic cycle d r
  = Return (if GO_selects hs r
            then d ++ [(cell_texts r ++ [topic]) ++ [cycle]] else d).
Proof.
  intros Hcol%GO_column_present.
  unfold GO.row_body, GO_selects. fold (full_row hs r).
  destruct (full_row hs r) eqn:Hf; simpl; [|done].
  destruct (read_column _ hs r GO.normalize Hf Hcol) as (col & Hread & Hcc).
  rewrite Hcc.
  assert (GO.instrument_mode hs (td r) = Return (GO.normalize (get_text col))) as ->.
  { unfold GO.instrument_mode. unfold GO_column in Hread.
    by destruct (Py.mem "Instrument/ Mode" hs). }
  simpl. by destruct (Py.contains _ _).
Qed.

(** ** The page extractors as filters *)

(** X1: on a fetched page DDT never fails, and returns, under the headers of
    the first table that has a row, the stripped cell texts of exactly the
    data rows that have as many cells as those headers and whose
    "Instruments" cell contains "NIRSpec", in document order. *)
Theorem DDT_is_a_filter code page :
  good_status code →
  extract_basic_info_from_DDT (Return (Response code page))
  = Return (DDT_expected page).
Proof.
  intros Hg. unfold extract_basic_info_from_DDT.
  rewrite (fetched_good code page DDT.parse Hg), DDT_parse_step.
  rewrite table_loop_nested, list_fmap_id. unfold DDT_expected.
  destruct (effective_headers (tables page)) as [hs|]; [|done].
  rewrite (nested_loop_filter id _ (λ _, DDT_selects hs) (λ _, cell_texts))
    by (intros; apply DDT_row_body_eq).
  simpl. by rewrite data_rows_filter.
Qed.

Lemma DDT_is_a_filter_witness :
  extract_basic_info_from_DDT (Return (Response 200 DDT_page))
  = Return ([["2756"; "NIRSpec, NIRCam"]], Some ["ID"; "Instruments"]).
Proof.
  refine (eq_trans (DDT_is_a_filter 200 DDT_page _) _).
  - unfold good_status. lia.
  - vm_compute. reflexivity.
Defined.

(** X2: on a fetched page GTO never fails, and returns, under the headers of
    the first table that has a row, exactly the data rows that have as many
    cells as those headers and whose instrument cell contains "NIRSpec/MOS",
    in document order, each as its cell texts with the "AR" marker. *)
Theorem GTO_is_a_filter code page :
  good_status code →
  extract_basic_info_from_GTO (Return (Response code page))
  = Return (GTO_expected page).
Proof.
  intros Hg. unfold extract_basic_info_from_GTO.
  rewrite (fetched_good code page GTO.parse Hg), GTO_parse_step.
  rewrite table_loop_nested, list_fmap_id. unfold GTO_expected.
  destruct (effective_headers (tables page)) as [hs|]; [|done].
  rewrite (nested_loop_filter id _ (λ _, GTO_selects hs) (λ _, GTO_marked hs))
    by (intros; apply GTO_row_body_eq).
  simpl. by rewrite data_rows_filter.
Qed.

Lemma GTO_is_a_filter_witness :
  extract_basic_info_from_GTO (Return (Response 200 GTO_page))
  = Return ([["AR"; "NIRSpec/MOS"; "1210"]; [""; "NIRSpec/MOS"; "1211"]],
            Some ["AR?"; "Instrument/ Mode"; "ID"]).
Proof.
  refine (eq_trans (GTO_is_a_filter 200 GTO_page _) _).
  - unfold good_status. lia.
  - vm_compute. reflexivity.
Defined.

Lemma GO_parse_with_column page cycle hs :
  effective_headers (paired_tables page) = Some hs →
  "Instrument/Mode" ∈ hs ∨ "Instrument/ Mode" ∈ hs →
  GO.parse page cycle = Return (GO_expected page cycle).
Proof.
  intros He Hcol.
  rewrite GO_parse_step, table_loop_nested. fold (paired_tables page).
  unfold GO_expected. rewrite He.
  rewrite (nested_loop_filter snd _ (λ _, GO_selects hs)
             (λ item r, (cell_texts r ++ [get_text item.1]) ++ [cycle])).
  - done.
  - intros item d r. by apply GO_row_body_eq.
Qed.

(** Without the instrument column GO fails at the first full row. *)
Lemma GO_parse_without_column page cycle hs :
  effective_headers (paired_tables page) = Some hs →
  "Instrument/Mode" ∉ hs → "Instrument/ Mode" ∉ hs →
  GO.parse page cycle
  = if existsb (λ item : element * table, existsb (full_row hs) (drop 1 item.2))
         (zip (topics page) (tables page))
    then Raise ValueError else Return ([], Some hs).
Proof.
  intros He H1 H2.
  rewrite GO_parse_step, table_loop_nested. fold (paired_tables page). rewrite He.
  rewrite (for_loop_guard (λ item, existsb (full_row hs) (drop 1 item.2)) ValueError).
  - by destruct (existsb _ _).
  - intros d it. unfold rows_step. apply for_loop_guard.
    intros d' r'. by apply GO_row_body_no_column.
Qed.

(** X3: where the headers GO works with (those of the first table that is
    paired with a topic and has a row) name the instrument column, under
    either spelling, or where no paired table has a row, GO does not fail: it
    returns, for each table paired with a topic and in document order, the
    data rows that have as many cells as the headers and whose instrument
    cell, without spaces, newlines and carriage returns, contains
    "NIRSpec/MOS", each as its cell texts followed by the text of the topic
    of its table and by the cycle. *)
Theorem GO_is_a_filter code page cycle :
  good_status code →
  (∀ hs, effective_headers (paired_tables page) = Some hs →
         "Instrument/Mode" ∈ hs ∨ "Instrument/ Mode" ∈ hs) →
  extract_basic_info_from_GO (Return (Response code page)) cycle
  = Return (GO_expected page cycle).
Proof.
  intros Hg Hcol. unfold extract_basic_info_from_GO.
  rewrite (fetched_good code page (λ page, GO.parse page cycle) Hg).
  destruct (effective_headers (paired_tables page)) as [hs|] eqn:He.
  - apply (GO_parse_with_column page cycle hs He). by apply Hcol.
  - rewrite GO_parse_step, table_loop_nested. fold (paired_tables page).
    unfold GO_expected. by rewrite He.
Qed.

Lemma GO_is_a_filter_witness :
  extract_basic_info_from_GO (Return (Response 200 two_table_page)) "Cycle 1"
  = Return ([["NIRSpec/MOS"; "Smith"; "Stars"; "Cycle 1"]],
            Some ["Instrument/Mode"; "PI"]).
Proof.
  refine (eq_trans (GO_is_a_filter 200 two_table_page "Cycle 1" _ _) _).
  - unfold good_status. lia.
  - intros hs [= <-]. left. left.
  - vm_compute. reflexivity.
Defined.

(** X4: on a fetched page the only failure of GO is the [ValueError] of the
    header lookup, and it occurs only where the headers GO works with name
    no instrument column and a table paired with a topic has a data row with
    as many cells as those headers. *)
Theorem GO_fails_only_without_column code page cycle e :
  good_status code →
  extract_basic_info_from_GO (Return (Response code page)) cycle = Raise e →
  e = ValueError ∧
  ∃ hs item r,
    effective_headers (paired_tables page) = Some hs ∧
    ("Instrument/Mode" ∉ hs) ∧ ("Instrument/ Mode" ∉ hs) ∧
    item ∈ zip (topics page) (tables page) ∧ r ∈ drop 1 item.2 ∧
    length (td r) = length hs.
Proof.
  intros Hg. unfold extract_basic_info_from_GO.
  rewrite (fetched_good code page (λ page, GO.parse page cycle) Hg).
  destruct (effective_headers (paired_tables page)) as [hs|] eqn:He.
  - destruct (decide ("Instrument/Mode" ∈ hs)) as [H1|H1].
    { rewrite (GO_parse_with_column page cycle hs He); [done|by left]. }
    destruct (decide ("Instrument/ Mode" ∈ hs)) as [H2|H2].
    { rewrite (GO_parse_with_column page cycle hs He); [done|by right]. }
    rewrite (GO_parse_without_column page cycle hs He H1 H2).
    destruct (existsb _ _) eqn:Hex; [|done]. intros [= <-]. split; [done|].
    apply existsb_exists in Hex as (item & Hitem%list_elem_of_In & Hex).
    apply existsb_exists in Hex as (r & Hr%list_elem_of_In & Hfull%full_row_spec).
    by exists hs, item, r.
  - rewrite GO_parse_step, table_loop_nested. fold (paired_tables page).
    by rewrite He.
Qed.

Lemma GO_fails_only_without_column_witness :
  ValueError = ValueError ∧
  ∃ hs item r,
    effective_headers (paired_tables no_column_page) = Some hs ∧
    ("Instrument/Mode" ∉ hs) ∧ ("Instrument/ Mode" ∉ hs) ∧
    item ∈ zip (topics no_column_page) (tables no_column_page) ∧
    r ∈ drop 1 item.2 ∧ length (td r) = length hs.
Proof.
  refine (GO_fails_only_without_column 200 no_column_page "Cycle 1" ValueError _ _).
  - unfold good_status. lia.
  - vm_compute. reflexivity.
Defined.

(** ** Topics and tables *)

Lemma zip_more_right {A B} (l : list A) (k extra : list B) :
  (length l ≤ length k)%nat → zip l (k ++ extra) = zip l k.
Proof.
  revert k. induction l as [|a l IH]; intros [|b k] Hlen; simpl in *;
    [done|done|lia|]. f_equal. apply IH. lia.
Qed.

Lemma zip_more_left {A B} (l extra : list A) (k : list B) :
  (length k ≤ length l)%nat → zip (l ++ extra) k = zip l k.
Proof.
  revert k. induction l as [|a l IH]; intros [|b k] Hlen; simpl in *;
    [by destruct extra|lia|done|]. f_equal. apply IH. lia.
Qed.

(** X5: GO pairs topics and tables by position and reads the pairs only: the
    tables after the last topic, and the topics after the last table, change
    nothing in its outcome. *)
Theorem GO_reads_pairs_only get_code tps ts cycle :
  (∀ more_tables,
      (length tps ≤ length ts)%nat →
      extract_basic_info_from_GO
        (Return (Response get_code (Soup tps (ts ++ more_tables)))) cycle
      = extract_basic_info_from_GO (Return (Response get_code (Soup tps ts))) cycle) ∧
  (∀ more_topics,
      (length ts ≤ length tps)%nat →
      extract_basic_info_from_GO
        (Return (Response get_code (Soup (tps ++ more_topics) ts))) cycle
      = extract_basic_info_from_GO (Return (Response get_code (Soup tps ts))) cycle).
Proof.
  split; intros more Hlen; unfold extract_basic_info_from_GO; simpl;
    destruct (raise_for_status _); simpl; try done; unfold GO.parse; simpl.
  - by rewrite zip_more_right.
  - by rewrite zip_more_left.
Qed.

Lemma GO_reads_pairs_only_witness :
  extract_basic_info_from_GO (Return (Response 200 unpaired_page)) "Cycle 1"
  = Return ([], Some ["Instrument/Mode"; "PI"]).
Proof.
  refine (eq_trans
            (proj1 (GO_reads_pairs_only 200 [text "Galaxies"]
                      [[header_row ["Instrument/Mode"; "PI"];
                        data_row ["NIRCam/Imaging"; "Jones"]]] "Cycle 1")
               [[header_row ["Instrument/Mode"; "PI"];
                 data_row ["NIRSpec/MOS"; "Smith"]]] _) _).
  - simpl. lia.
  - vm_compute. reflexivity.
Defined.

(** ** Failures of the fetch *)

Lemma raise_for_status_cases r :
  (400 <= status_code r < 600 ∧ raise_for_status r = Raise (HTTPError (status_code r))) ∨
  (good_status (status_code r) ∧ raise_for_status r = Return tt).
Proof.
  unfold raise_for_status, good_status.
  destruct (Z.leb_spec 400 (status_code r)), (Z.ltb_spec (status_code r) 600);
    simpl; [left|right..]; split; try done; lia.
Qed.

(** X6: GTO and DDT fail exactly when the fetch fails: with the exception
    that [requests.get] raises, or with [HTTPError] for a status code from
    400 to 599.  Nothing in a fetched page makes them fail. *)
Theorem GTO_DDT_fail_with_the_fetch get e :
  (extract_basic_info_from_GTO get = Raise e ↔
   get = Raise e ∨
   ∃ code page, get = Return (Response code page) ∧ 400 <= code < 600 ∧
                e = HTTPError code) ∧
  (extract_basic_info_from_DDT get = Raise e ↔
   get = Raise e ∨
   ∃ code page, get = Return (Response code page) ∧ 400 <= code < 600 ∧
                e = HTTPError code).
Proof.
  assert (∀ (extract : result response → result (list (list string) * option (list string))),
            (∀ e, extract (Raise e) = Raise e) →
            (∀ code page, 400 <= code < 600 →
                          extract (Return (Response code page)) = Raise (HTTPError code)) →
            (∀ code page, good_status code →
                          ∃ x, extract (Return (Response code page)) = Return x) →
            extract get = Raise e ↔
            get = Raise e ∨
            ∃ code page, get = Return (Response code page) ∧ 400 <= code < 600 ∧
                         e = HTTPError code) as Hgen.
  { intros extract Hraise Hbad Hgood. split.
    - destruct get as [[code page]|e'].
      + destruct (raise_for_status_cases (Response code page)) as [[Hc _]|[Hc _]];
          simpl in Hc.
        * rewrite Hbad by done. intros [= <-]. right. by exists code, page.
        * destruct (Hgood code page Hc) as [x ->]. done.
      + rewrite Hraise. intros [= <-]. by left.
    - intros [-> | (code & page & -> & Hc & ->)]; [apply Hraise|by apply Hbad]. }
  split; apply Hgen.
  - done.
  - intros code page Hc. unfold extract_basic_info_from_GTO. simpl.
    destruct (raise_for_status_cases (Response code page)) as [[_ ->]|[Hg _]];
      [done|]. exfalso. by apply Hg.
  - intros code page Hg. destruct (GTO_never_raises code page Hg) as [d Hd].
    by eexists.
  - done.
  - intros code page Hc. unfold extract_basic_info_from_DDT. simpl.
    destruct (raise_for_status_cases (Response code page)) as [[_ ->]|[Hg _]];
      [done|]. exfalso. by apply Hg.
  - intros code page Hg. destruct (DDT_never_raises code page Hg) as [d Hd].
    by eexists.
Qed.

Lemma GTO_DDT_fail_with_the_fetch_witness :
  extract_basic_info_from_GTO (Return (Response 500 GTO_page)) = Raise (HTTPError 500) ∧
  extract_basic_info_from_DDT (Raise Timeout) = Raise Timeout.
Proof.
  split.
  - apply (proj1 (GTO_DDT_fail_with_the_fetch _ _)). right.
    exists 500, GTO_page. split_and!; [reflexivity|lia|lia|reflexivity].
  - apply (proj2 (GTO_DDT_fail_with_the_fetch _ _)). left. reflexivity.
Defined.

(** ** The extraction of the status page *)

Lemma getitem_int_nat {A} (l : list A) (i : nat) :
  Py.getitem_int l (Z.of_nat i) = Py.getitem l i.
Proof.
  unfold Py.getitem_int.
  destruct (Z.ltb_spec (Z.of_nat i) 0); [lia|].
  destruct (Z.ltb_spec (Z.of_nat i) 0); [lia|]. by rewrite Nat2Z.id.
Qed.

(** The index the source computes for the "Template" column. *)
Lemma template_index_eq hs :
  (if Py.mem "Template" hs
   then i ← Py.index "Template" hs; mret (Z.of_nat i)
   else mret (-1))
  = Return (match Py.find_index "Template" hs with
            | Some i => Z.of_nat i
            | None => -1
            end).
Proof.
  rewrite mem_find_index. unfold Py.index.
  by destruct (Py.find_index "Template" hs).
Qed.

Lemma status_row_body_eq hs d r :
  Status.row_body hs
    (match Py.find_index "Template" hs with Some i => Z.of_nat i | None => -1 end) d r
  = Return (if Status_selects hs r then d ++ [Py.dict_zip hs (cell_texts r)] else d).
Proof.
  unfold Status.row_body, Status_selects, column_contains. fold (full_row hs r).
  destruct (full_row hs r) eqn:Hf; simpl; [|done].
  apply full_row_spec in Hf.
  destruct (Py.find_index "Template" hs) as [i|] eqn:Hi; [|done].
  destruct (Z.eqb_spec (Z.of_nat i) (-1)); [lia|]. simpl.
  rewrite getitem_int_nat. unfold Py.getitem. rewrite list_lookup_fmap.
  destruct (find_index_Some _ _ _ Hi) as [_ Hlt].
  destruct (lookup_lt_is_Some_2 (td r) i) as [col ->]; [lia|]. simpl.
  unfold id. by destruct (Py.contains _ _).
Qed.

Lemma filter_none {A} (p : A → bool) (l : list A) :
  (∀ x, x ∈ l → p x = false) → filter (λ x, p x) l = [].
Proof.
  induction l as [|x l IH]; intros Hp; [done|].
  rewrite filter_cons, IH by (intros; apply Hp; by right).
  rewrite (Hp x) by left. by rewrite decide_False by exact id.
Qed.

Lemma status_selects_no_template hs r :
  "Template" ∉ hs → Status_selects hs r = false.
Proof.
  intros H. unfold Status_selects.
  by rewrite column_contains_missing, andb_false_r.
Qed.

Lemma status_table_body_headers d all_headers row0 rows hs :
  get_text <$> td row0 = hs →
  Status.table_body (d, all_headers) (row0 :: rows)
  = Return (d ++ ((λ r, Py.dict_zip hs (cell_texts r))
                    <$> filter (λ r, Status_selects hs r) rows),
            Status.extend_new all_headers hs).
Proof.
  intros Hh. unfold Status.table_body.
  change (Py.getitem (row0 :: rows) 0%nat) with (Return row0).
  change (drop 1 (row0 :: rows)) with rows.
  cbn [mbind result_bind]. rewrite Hh. destruct hs as [|h0 hs0].
  - rewrite filter_none.
    + simpl. unfold Status.extend_new. simpl. by rewrite !app_nil_r.
    + intros r _. apply status_selects_no_template, not_elem_of_nil.
  - rewrite template_index_eq. cbn [mbind result_bind].
    rewrite (for_loop_filter (Status_selects (h0 :: hs0))
               (λ r, Py.dict_zip (h0 :: hs0) (cell_texts r)))
      by (intros; apply status_row_body_eq).
    done.
Qed.

Lemma status_table_body_eq d all_headers (t : table) :
  Status.table_body (d, all_headers) t
  = match t with
    | [] => Raise IndexError
    | _ :: _ => Return (d ++ status_records t,
                        Status.extend_new all_headers (status_headers t))
    end.
Proof.
  destruct t as [|row0 rows]; [done|].
  by apply status_table_body_headers.
Qed.

Lemma status_table_loop_eq (ts : list table) :
  ∀ d all_headers,
    for_loop Status.table_body (d, all_headers) ts
    = if has_empty_table ts then Raise IndexError
      else Return (d ++ concat (status_records <$> ts),
                   foldl Status.extend_new all_headers (status_headers <$> ts)).
Proof.
  induction ts as [|t ts IH]; intros d ah.
  - simpl. by rewrite app_nil_r.
  - cbn [for_loop]. rewrite status_table_body_eq.
    destruct t as [|row0 rows]; [done|].
    cbn [mbind result_bind]. rewrite IH.
    change (has_empty_table ((row0 :: rows) :: ts)) with (has_empty_table ts).
    destruct (has_empty_table ts); [done|].
    rewrite !fmap_cons. cbn [concat foldl]. by rewrite <- app_assoc.
Qed.

Lemma status_extract_expected page : Status.extract page = Status_expected page.
Proof.
  unfold Status.extract, Status_expected.
  destruct (tables page) as [|t ts] eqn:Ht; [done|].
  by rewrite status_table_loop_eq.
Qed.

Lemma succeeds_at_outcome session retries k page :
  succeeds_at session retries k page →
  get_observation_status session retries = Some (Status_expected page, S k).
Proof.
  intros (Hk & Hpre & code & Hs & Hg).
  rewrite <- status_extract_expected.
  apply while_loop_settles; [done|done| |apply extract_not_caught].
  rewrite Hs. by apply try_block_accepted.
Qed.

(** X7: after the first accepted response, [get_observation_status] fails
    with [IndexError] if some table of the page has no row at all; otherwise
    it returns, table after table, the records of the data rows that have as
    many cells as the first row of their table and whose "Template" cell
    contains "NIRSpec MultiObject Spectroscopy", with the merged headers. *)
Theorem status_extraction_is_a_filter session retries k page :
  succeeds_at session retries k page →
  get_observation_status session retries
  = Some (if has_empty_table (tables page) then Raise IndexError
          else Return (concat (status_records <$> tables page),
                       foldl Status.extend_new [] (status_headers <$> tables page)),
          S k).
Proof. apply succeeds_at_outcome. Qed.

Lemma status_extraction_is_a_filter_witness :
  get_observation_status (flaky_session (ok status_page)) 3
  = Some (Return ([Py.dict_zip ["Observation"; "Template"; "Status"]
                               ["1"; "NIRSpec MultiObject Spectroscopy"; "Archived"]],
                  ["Observation"; "Template"; "Status"]), 3%nat).
Proof.
  refine (eq_trans (status_extraction_is_a_filter
                      (flaky_session (ok status_page)) 3 2 status_page _) _).
  - split_and!; [lia| |].
    + intros [|[|i]] Hi; [by right|by right|lia].
    + exists 200. split; [reflexivity|unfold good_status; lia].
  - vm_compute. reflexivity.
Defined.

(** X8: a page none of whose tables has a header "Template" gives no record
    at all, whatever its rows hold; the headers are returned all the same. *)
Theorem status_without_template session retries k page :
  succeeds_at session retries k page →
  has_empty_table (tables page) = false →
  (∀ t, t ∈ tables page → "Template" ∉ status_headers t) →
  get_observation_status session retries
  = Some (Return ([], foldl Status.extend_new [] (status_headers <$> tables page)),
          S k).
Proof.
  intros Hs He Hno. rewrite (succeeds_at_outcome _ _ _ _ Hs).
  unfold Status_expected. rewrite He.
  assert (∀ ts : list table,
            (∀ t, t ∈ ts → "Template" ∉ status_headers t) →
            concat (status_records <$> ts) = []) as Hnil; [|by rewrite Hnil].
  clear. induction ts as [|t ts IH]; intros Hno; [done|].
  rewrite fmap_cons. cbn [concat]. rewrite IH by (intros; apply Hno; by right).
  rewrite app_nil_r. unfold status_records. rewrite filter_none; [done|].
  intros r _. apply status_selects_no_template, Hno. by left.
Qed.

Lemma status_without_template_witness :
  get_observation_status
    (λ _, ok (page_of [[status_row ["Visit"; "Status"];
                        status_row ["1"; "NIRSpec MultiObject Spectroscopy"]]])) 1
  = Some (Return ([], ["Visit"; "Status"]), 1%nat).
Proof.
  refine (eq_trans (status_without_template _ 1 0
                      (page_of [[status_row ["Visit"; "Status"];
                                 status_row ["1"; "NIRSpec MultiObject Spectroscopy"]]])
                      _ _ _) _).
  - split_and!; [lia|intros i Hi; lia|].
    exists 200. split; [reflexivity|unfold good_status; lia].
  - reflexivity.
  - intros t ->%list_elem_of_singleton.
    apply (bool_decide_unpack _). vm_compute. exact I.
  - vm_compute. reflexivity.
Defined.

(** ** The records of the status page *)

Lemma dict_fold_lookup_notin (l : list (string * string)) :
  ∀ (m : gmap string string) k,
    k ∉ l.*1 → foldl (λ m kv, <[kv.1 := kv.2]> m) m l !! k = m !! k.
Proof.
  induction l as [|[k1 v1] l IH]; intros m k Hk; [done|].
  rewrite fmap_cons in Hk. apply not_elem_of_cons in Hk as [Hne Hk].
  simpl. rewrite IH by done. by rewrite lookup_insert_ne.
Qed.

Lemma dict_fold_lookup (l : list (string * string)) :
  NoDup l.*1 →
  ∀ (m : gmap string string) k v,
    (k, v) ∈ l → foldl (λ m kv, <[kv.1 := kv.2]> m) m l !! k = Some v.
Proof.
  induction l as [|[k1 v1] l IH]; intros Hnd m k v Hin.
  - by apply elem_of_nil in Hin.
  - rewrite fmap_cons in Hnd. apply NoDup_cons in Hnd as [Hk1 Hnd].
    apply elem_of_cons in Hin as [[= -> ->] | Hin]; simpl.
    + rewrite dict_fold_lookup_notin by done. by rewrite lookup_insert_eq.
    + by apply IH.
Qed.

Lemma dict_fold_dom (l : list (string * string)) :
  ∀ m : gmap string string,
    dom (foldl (λ m kv, <[kv.1 := kv.2]> m) m l) = dom m ∪ list_to_set l.*1.
Proof.
  induction l as [|[k1 v1] l IH]; intros m; simpl.
  - by rewrite (right_id_L ∅ (∪)).
  - rewrite IH, dom_insert_L.
    by rewrite (comm_L (∪) {[k1]} (dom m)), <- (assoc_L (∪)).
Qed.

(** With distinct keys and as many values, the dictionary maps each key to
    the value at its position. *)
Lemma dict_zip_lookup keys values i k :
  NoDup keys → length keys = length values → keys !! i = Some k →
  Py.dict_zip keys values !! k = values !! i.
Proof.
  intros Hnd Hlen Hk.
  destruct (lookup_lt_is_Some_2 values i) as [v Hv].
  { rewrite <- Hlen. by eapply lookup_lt_Some. }
  rewrite Hv. unfold Py.dict_zip. apply dict_fold_lookup.
  - rewrite fst_zip by lia. done.
  - apply list_elem_of_lookup. exists i. by apply lookup_zip_Some.
Qed.

Lemma dict_zip_dom keys values :
  length keys = length values →
  dom (Py.dict_zip keys values) = list_to_set keys.
Proof.
  intros Hlen. unfold Py.dict_zip. rewrite dict_fold_dom, fst_zip by lia.
  by rewrite dom_empty_L, (left_id_L ∅ (∪)).
Qed.

Lemma status_selects_inv hs r :
  Status_selects hs r = true →
  length (td r) = length hs ∧
  ∃ i cell, hs !! i = Some "Template" ∧ cell_texts r !! i = Some cell ∧
            Py.contains "NIRSpec MultiObject Spectroscopy" cell = true.
Proof.
  unfold Status_selects, column_contains.
  intros [Hf%full_row_spec Hc]%andb_true_iff. split; [done|].
  destruct (Py.find_index "Template" hs) as [i|] eqn:Hi; [|done].
  destruct (td r !! i) as [col|] eqn:Hcol; [|done].
  exists i, (get_text col). split_and!; [|by unfold cell_texts; rewrite list_lookup_fmap, Hcol|done].
  by apply find_index_Some in Hi as [Hi _].
Qed.

Lemma elem_of_concat {A} (x : A) (ls : list (list A)) :
  x ∈ concat ls ↔ ∃ l, x ∈ l ∧ l ∈ ls.
Proof.
  induction ls as [|l ls IH]; simpl.
  - split; [by intros ?%elem_of_nil|by intros (l & _ & ?%elem_of_nil)].
  - rewrite elem_of_app, IH. split.
    + intros [?|(l' & ? & ?)]; [exists l|exists l']; split; try done;
        [by left|by right].
    + intros (l' & ? & [->|?]%elem_of_cons); [by left|right; by exists l'].
Qed.

Lemma status_expected_records page data all_headers rec :
  Status_expected page = Return (data, all_headers) →
  rec ∈ data →
  ∃ t r, t ∈ tables page ∧ r ∈ drop 1 t ∧
         Status_selects (status_headers t) r = true ∧
         rec = Py.dict_zip (status_headers t) (cell_texts r).
Proof.
  unfold Status_expected. destruct (has_empty_table _); [done|].
  intros [= <- <-] Hrec.
  apply elem_of_concat in Hrec as (recs & Hrec & Hrecs).
  apply list_elem_of_fmap in Hrecs as (t & -> & Ht).
  unfold status_records in Hrec.
  apply list_elem_of_fmap in Hrec as (r & -> & Hr).
  apply list_elem_of_filter in Hr as [Hsel Hr].
  exists t, r. split_and!; [done|done| |done]. by apply Is_true_true.
Qed.

(** X9: every record returned comes from a data row of a table of the page
    that has as many cells as the first row of that table; its keys are the
    header names of the table; and where these names are distinct, it maps
    each header to the stripped text of the cell of the row in that column,
    so that its "Template" entry contains "NIRSpec MultiObject
    Spectroscopy". *)
Theorem status_record_reads_its_row session retries k page data all_headers rec :
  succeeds_at session retries k page →
  get_observation_status session retries = Some (Return (data, all_headers), S k) →
  rec ∈ data →
  ∃ t r,
    t ∈ tables page ∧ r ∈ drop 1 t ∧
    length (td r) = length (status_headers t) ∧
    dom rec = list_to_set (status_headers t) ∧
    (NoDup (status_headers t) →
     (∀ i h, status_headers t !! i = Some h → rec !! h = cell_texts r !! i) ∧
     ∃ cell, rec !! "Template" = Some cell ∧
             Py.contains "NIRSpec MultiObject Spectroscopy" cell = true).
Proof.
  intros Hs Hget Hrec. rewrite (succeeds_at_outcome _ _ _ _ Hs) in Hget.
  injection Hget as Hexp.
  destruct (status_expected_records _ _ _ _ Hexp Hrec) as (t & r & Ht & Hr & Hsel & ->).
  apply status_selects_inv in Hsel as (Hlen & i & cell & Hi & Hcell & Hc).
  assert (length (status_headers t) = length (cell_texts r)) as Hlen'.
  { unfold cell_texts. by rewrite length_fmap. }
  exists t, r. split_and!; [done|done|done|by apply dict_zip_dom|].
  intros Hnd. split.
  - intros j h Hj. by apply dict_zip_lookup.
  - exists cell. split; [|done]. by rewrite (dict_zip_lookup _ _ i).
Qed.

Lemma status_record_reads_its_row_witness :
  ∃ t r,
    t ∈ tables status_page ∧ r ∈ drop 1 t ∧
    length (td r) = length (status_headers t) ∧
    dom (Py.dict_zip ["Observation"; "Template"; "Status"]
           ["1"; "NIRSpec MultiObject Spectroscopy"; "Archived"])
    = list_to_set (status_headers t) ∧
    (NoDup (status_headers t) →
     (∀ i h, status_headers t !! i = Some h →
             Py.dict_zip ["Observation"; "Template"; "Status"]
               ["1"; "NIRSpec MultiObject Spectroscopy"; "Archived"] !! h
             = cell_texts r !! i) ∧
     ∃ cell, Py.dict_zip ["Observation"; "Template"; "Status"]
               ["1"; "NIRSpec MultiObject Spectroscopy"; "Archived"] !! "Template"
             = Some cell ∧
             Py.contains "NIRSpec MultiObject Spectroscopy" cell = true).
Proof.
  refine (status_record_reads_its_row (λ _, ok status_page) 1 0 status_page
            _ _ _ _ _ _).
  - split_and!; [lia|intros i Hi; lia|].
    exists 200. split; [reflexivity|unfold good_status; lia].
  - vm_compute. reflexivity.
  - left.
Defined.

(** ** The headers of the status page *)

Lemma elem_of_extend_new h acc hs :
  h ∈ Status.extend_new acc hs ↔ h ∈ acc ∨ h ∈ hs.
Proof.
  unfold Status.extend_new. rewrite elem_of_app, list_elem_of_filter. split.
  - intros [?|[_ ?]]; [by left|by right].
  - intros [?|?]; [by left|]. destruct (decide (h ∈ acc)); [by left|by right].
Qed.

Lemma elem_of_merge_headers h (hss : list (list string)) :
  ∀ acc, h ∈ foldl Status.extend_new acc hss ↔ h ∈ acc ∨ ∃ hs, hs ∈ hss ∧ h ∈ hs.
Proof.
  induction hss as [|hs hss IH]; intros acc; simpl.
  - split; [by left|]. intros [?|(hs & Hin & _)]; [done|].
    by apply elem_of_nil in Hin.
  - rewrite IH, elem_of_extend_new. split.
    + intros [[?|?]|(hs' & ? & ?)]; [by left|right..].
      * exists hs. split; [by left|done].
      * exists hs'. split; [by right|done].
    + intros [?|(hs' & [->|?]%elem_of_cons & ?)].
      * by left; left.
      * by left; right.
      * right. by exists hs'.
Qed.

(** X10: the header list returned holds exactly the header names of the
    tables of the page: every name of every table, and no other name. *)
Theorem status_headers_cover_all_tables session retries k page data all_headers :
  succeeds_at session retries k page →
  get_observation_status session retries = Some (Return (data, all_headers), S k) →
  ∀ h, h ∈ all_headers ↔ ∃ t, t ∈ tables page ∧ h ∈ status_headers t.
Proof.
  intros Hs Hget h. rewrite (succeeds_at_outcome _ _ _ _ Hs) in Hget.
  injection Hget as Hexp. unfold Status_expected in Hexp.
  destruct (has_empty_table _); [done|]. injection Hexp as _ <-.
  rewrite elem_of_merge_headers. split.
  - intros [Hin|(hs & (t & -> & Ht)%list_elem_of_fmap & Hh)].
    + by apply elem_of_nil in Hin.
    + by exists t.
  - intros (t & Ht & Hh). right. exists (status_headers t).
    split; [|done]. apply list_elem_of_fmap. by exists t.
Qed.

Lemma status_headers_cover_all_tables_witness :
  "Status" ∈ ["Observation"; "Template"; "Status"] ↔
  ∃ t, t ∈ tables status_page ∧ "Status" ∈ status_headers t.
Proof.
  refine (status_headers_cover_all_tables (λ _, ok status_page) 1 0 status_page
            _ _ _ _ "Status").
  - split_and!; [lia|intros i Hi; lia|].
    exists 200. split; [reflexivity|unfold good_status; lia].
  - vm_compute. reflexivity.
Defined.

(** X11: on a page none of whose header rows repeats a name, the header list
    returned is the union of the header rows in order of first appearance,
    and has no duplicates. *)
Theorem status_headers_in_order_of_appearance
    session retries k page data all_headers :
  succeeds_at session retries k page →
  Forall (λ t, NoDup (status_headers t)) (tables page) →
  get_observation_status session retries = Some (Return (data, all_headers), S k) →
  all_headers = first_appearance_union (status_headers <$> tables page) ∧
  NoDup all_headers.
Proof.
  intros Hs Hnd Hget. rewrite (succeeds_at_outcome _ _ _ _ Hs) in Hget.
  injection Hget as Hexp. unfold Status_expected in Hexp.
  destruct (has_empty_table _); [done|]. injection Hexp as _ <-.
  rewrite merge_headers_first_appearance by by apply Forall_fmap.
  split; [done|apply first_appearance_union_NoDup].
Qed.

Lemma status_headers_in_order_of_appearance_witness :
  ["Visit"; "Status"; "Template"]
  = first_appearance_union
      (status_headers <$> [[status_row ["Visit"; "Status"]];
                           [status_row ["Status"; "Template"; "Visit"]]]) ∧
  NoDup ["Visit"; "Status"; "Template"].
Proof.
  refine (status_headers_in_order_of_appearance
            (λ _, ok (page_of [[status_row ["Visit"; "Status"]];
                               [status_row ["Status"; "Template"; "Visit"]]]))
            1 0 (page_of [[status_row ["Visit"; "Status"]];
                          [status_row ["Status"; "Template"; "Visit"]]])
            [] _ _ _ _).
  - split_and!; [lia|intros i Hi; lia|].
    exists 200. split; [reflexivity|unfold good_status; lia].
  - apply (bool_decide_unpack _). vm_compute. exact I.
  - vm_compute. reflexivity.
Defined.

(** ** The outcomes of the retry loop *)

(** What the retry loop catches is a failure of the fetch itself. *)
Lemma try_block_caught r e :
  Status.try_block r = Raise e → Status.caught e = true → transient r.
Proof.
  destruct r as [[code page]|e0].
  - unfold Status.try_block. simpl.
    destruct (raise_for_status_cases (Response code page)) as [[_ ->]|[_ ->]]; simpl.
    + by intros [= <-].
    + intros He Hc. by rewrite (extract_not_caught _ _ He) in Hc.
  - simpl. intros [= <-]. destruct e0; try done; [by left|by right].
Qed.

Lemma transient_caught r :
  transient r → ∃ e, Status.try_block r = Raise e ∧ Status.caught e = true.
Proof. intros [-> | ->]; eexists; split; reflexivity. Qed.

Lemma while_loop_cases session retries :
  ∀ fuel attempt calls r n,
    Status.while_loop fuel session retries attempt calls = Some (r, n) →
    (r = Return ([], []) ∧
     n = (calls + Z.to_nat (retries - attempt))%nat ∧
     ∀ i, (calls ≤ i < n)%nat → transient (session i)) ∨
    (∃ k, n = S k ∧ (calls ≤ k)%nat ∧
          attempt + Z.of_nat (k - calls) < retries ∧
          (∀ i, (calls ≤ i < k)%nat → transient (session i)) ∧
          ¬ transient (session k) ∧
          r = Status.try_block (session k)).
Proof.
  induction fuel as [|fuel IH]; intros attempt calls r n; [done|].
  simpl. destruct (Z.ltb_spec attempt retries) as [Hlt|Hge].
  - destruct (Status.try_block (session calls)) as [v|e] eqn:Htry.
    + intros [= <- <-]. right. exists calls.
      split_and!; [done|lia|rewrite Nat.sub_diag; lia|intros i Hi; lia| |done].
      intros (e & He & _)%transient_caught. congruence.
    + destruct (Status.caught e) eqn:Hc.
      * pose proof (try_block_caught _ _ Htry Hc) as Htr.
        intros [(-> & -> & Hall) | (k & -> & Hk & Hb & Hall & Hnt & ->)]%IH.
        -- left. split_and!; [done|lia|].
           intros i Hi. destruct (decide (i = calls)) as [->|]; [done|].
           apply Hall. lia.
        -- right. exists k. split_and!; [done|lia|lia| |done|done].
           intros i Hi. destruct (decide (i = calls)) as [->|]; [done|].
           apply Hall. lia.
      * intros [= <- <-]. right. exists calls.
        split_and!; [done|lia|rewrite Nat.sub_diag; lia|intros i Hi; lia| |done].
        intros (e' & He' & Hc')%transient_caught. congruence.
  - intros [= <- <-]. left. split_and!; [done|lia|intros i Hi; lia].
Qed.

(** X12: the outcomes of [get_observation_status] are two.  Either every
    fetch within the budget was a connection error or a timeout: then
    [retries] fetches were made (none for a budget below 1) and the result is
    two empty lists.  Or one fetch within the budget was not: then it was the
    last fetch made, every fetch before it was a connection error or a
    timeout, and the outcome is what that fetch gives. *)
Theorem status_outcomes session retries r n :
  get_observation_status session retries = Some (r, n) →
  (r = Return ([], []) ∧ n = Z.to_nat retries ∧
   ∀ i, (i < n)%nat → transient (session i)) ∨
  (∃ k, n = S k ∧ Z.of_nat k < retries ∧
        (∀ i, (i < k)%nat → transient (session i)) ∧
        ¬ transient (session k) ∧
        r = Status.try_block (session k)).
Proof.
  intros [(-> & -> & Hall) | (k & -> & _ & Hb & Hall & Hnt & ->)]%while_loop_cases.
  - left. split_and!; [done|f_equal; lia|]. intros i Hi. apply Hall. lia.
  - right. exists k. split_and!; [done|lia| |done|done].
    intros i Hi. apply Hall. lia.
Qed.

Lemma status_outcomes_witness :
  (@Return (list Status.record * list string) ([], []) = Return ([], []) ∧
   3%nat = Z.to_nat 3 ∧
   ∀ i, (i < 3)%nat → transient (dead_session i)) ∨
  (∃ k, 3%nat = S k ∧ Z.of_nat k < 3 ∧
        (∀ i, (i < k)%nat → transient (dead_session i)) ∧
        ¬ transient (dead_session k) ∧
        Return ([], []) = Status.try_block (dead_session k)).
Proof.
  refine (status_outcomes dead_session 3 _ _ _). vm_compute. reflexivity.
Defined.

(** X13: [get_observation_status] always ends, after at most [retries]
    fetches (none for a budget below 1), and a connection error or a timeout
    never leaves it. *)
Theorem status_fetches_within_budget session retries :
  ∃ r n,
    get_observation_status session retries = Some (r, n) ∧
    (n ≤ Z.to_nat retries)%nat ∧
    r ≠ Raise ConnectionError ∧ r ≠ Raise Timeout.
Proof.
  destruct (get_observation_status_total session retries) as [[r n] Hget].
  exists r, n. split; [done|].
  apply while_loop_cases in Hget
    as [(-> & -> & _) | (k & -> & _ & Hb & _ & Hnt & ->)].
  - split_and!; [lia|done|done].
  - split_and!; [lia| |]; intros Htry; apply Hnt;
      by apply (try_block_caught _ _ Htry).
Qed.

Lemma status_fetches_within_budget_witness :
  ∃ r n,
    get_observation_status (flaky_session (ok status_page)) 2 = Some (r, n) ∧
    (n ≤ Z.to_nat 2)%nat ∧
    r ≠ Raise ConnectionError ∧ r ≠ Raise Timeout.
Proof. exact (status_fetches_within_budget (flaky_session (ok status_page)) 2). Defined.

(** ** The normalization of GO *)

Lemma chars_remove_char c s :
  chars (Py.remove_char c s) = filter (λ d, d ≠ c) (chars s).
Proof.
  induction s as [|d s IH]; [done|]. simpl. rewrite filter_cons.
  destruct (Ascii.eqb_spec c d) as [->|Hne].
  - by rewrite decide_False by (intros H; by apply H).
  - rewrite decide_True by done. simpl. by rewrite IH.
Qed.

(** X16: the normalization that GO applies to the instrument cell deletes
    the spaces, the newlines and the carriage returns and nothing else: the
    other characters stay, in their order. *)
Theorem GO_normalize_deletes_whitespace s :
  chars (GO.normalize s)
  = filter (λ c, c ∉ [" "%char; "010"%char; "013"%char]) (chars s) ∧
  ∀ c, c ∈ [" "%char; "010"%char; "013"%char] → c ∉ chars (GO.normalize s).
Proof.
  assert (chars (GO.normalize s)
          = filter (λ c, c ∉ [" "%char; "010"%char; "013"%char]) (chars s)) as Heq.
  { unfold GO.normalize. rewrite !chars_remove_char, !list_filter_filter.
    apply list_filter_iff. intros c.
    rewrite !not_elem_of_cons. pose proof (not_elem_of_nil c). tauto. }
  split; [done|]. intros c Hc. rewrite Heq. by intros [Hn _]%list_elem_of_filter.
Qed.

Lemma GO_normalize_deletes_whitespace_witness :
  " "%char ∉ chars (GO.normalize "NIRSpec/ MOS Prism").
Proof.
  refine (proj2 (GO_normalize_deletes_whitespace "NIRSpec/ MOS Prism") " "%char _).
  left.
Defined.
